(** * The e-mail approval workflow of [07_workflow_agent.py]

    A shallow embedding of [WorkflowState] and [EmailWorkflowToolkit]
    (draft, review, approve / reject, send, status) and the properties of
    its state machine.

    Python values are modelled as follows.
    - [str] is a sequence of Unicode code points ([list N]), so that [len]
      is [length] and [+] is [++]; literals are written as in the source
      and decoded from UTF-8 by [py].
    - the dict [self.email_draft] is a [gmap string str]; its truth value
      is "not empty" and [d[k]] raises [KeyError] on a missing key.
    - a method is a function from the object's state to an outcome (a
      returned value or a raised exception) and the state it leaves. *)

From Stdlib Require Import NArith Ascii String.
From stdpp Require Import gmap strings list fin_maps.

Local Open Scope N_scope.

(** ** Python strings *)

Abbreviation str := (list N).

Module PyStr.

(** Decoding of the UTF-8 bytes of a source literal: [pending] counts the
    continuation bytes still expected and [acc] holds the bits read so
    far. *)
Fixpoint utf8_decode (pending : nat) (acc : N) (bytes : list N) : str :=
  match bytes with
  | [] => []
  | b :: rest =>
      match pending with
      | O =>
          if b <? 128 then b :: utf8_decode 0 0 rest
          else if b <? 224 then utf8_decode 1 (b - 192) rest
          else if b <? 240 then utf8_decode 2 (b - 224) rest
          else utf8_decode 3 (b - 240) rest
      | S O => (acc * 64 + (b - 128)) :: utf8_decode 0 0 rest
      | S k => utf8_decode k (acc * 64 + (b - 128)) rest
      end
  end.

Definition py (literal : string) : str :=
  utf8_decode 0 0 (N_of_ascii <$> list_ascii_of_string literal).

(** [sep.join(parts)] *)
Fixpoint join (sep : str) (parts : list str) : str :=
  match parts with
  | [] => []
  | [p] => p
  | p :: rest => p ++ sep ++ join sep rest
  end.

(** The line feed of the escapes [\n] and of the line ends inside
    triple-quoted literals. *)
Definition nl : str := [10].

Definition lines (parts : list str) : str := join nl parts.

(** [len(s) < n] and [len(s) > n] *)
Definition len (s : str) : N := N.of_nat (length s).

(** Truth value of a string: the empty string is false. *)
Definition truthy (s : str) : bool :=
  match s with [] => false | _ :: _ => true end.

Fixpoint startswith (prefix s : str) : bool :=
  match prefix, s with
  | [], _ => true
  | _ :: _, [] => false
  | a :: prefix', b :: s' => (a =? b) && startswith prefix' s'
  end.

(** [needle in s] for strings: [needle] occurs as a substring of [s]. *)
Fixpoint contains (needle s : str) : bool :=
  startswith needle s ||
  match s with
  | [] => false
  | _ :: s' => contains needle s'
  end.

Definition is_ascii (c : N) : bool := c <? 128.

Definition ascii_lower (c : N) : N :=
  if (65 <=? c) && (c <=? 90) then c + 32 else c.

Definition ascii_upper (c : N) : N :=
  if (97 <=? c) && (c <=? 122) then c - 32 else c.

(** Case mapping of a string that has a code point outside ASCII is given
    by the Unicode tables of the Python runtime, which are not part of the
    program: they are an interface the development is parametric in. *)
Class UnicodeCase := {
  unicode_lower : str → str;
  unicode_upper : str → str
}.

(** [s.lower()] and [s.upper()]: on an ASCII string the letters A-Z and
    a-z are mapped and everything else is left alone. *)
Definition lower `{UnicodeCase} (s : str) : str :=
  if forallb is_ascii s then ascii_lower <$> s else unicode_lower s.

Definition upper `{UnicodeCase} (s : str) : str :=
  if forallb is_ascii s then ascii_upper <$> s else unicode_upper s.

(** A case mapping to evaluate the methods with on ASCII arguments, where
    the tables are never consulted. *)
Definition ascii_only_case : UnicodeCase :=
  {| unicode_lower := λ s, s; unicode_upper := λ s, s |}.

End PyStr.
Import PyStr.

(** ** The workflow object *)

(** [class WorkflowState(Enum)] with the [value] of each member. *)
Inductive WorkflowState := DRAFT | REVIEW | APPROVED | SENT | COMPLETED.

Global Instance WorkflowState_eq_dec : EqDecision WorkflowState.
Proof. solve_decision. Defined.

Definition value (st : WorkflowState) : str :=
  match st with
  | DRAFT => py "draft"
  | REVIEW => py "review"
  | APPROVED => py "approved"
  | SENT => py "sent"
  | COMPLETED => py "completed"
  end.

(** The two attributes the methods read and assign. *)
Record EmailWorkflowToolkit := Toolkit {
  workflow_state : WorkflowState;
  email_draft : gmap string str
}.

(** The state [__init__] leaves: state [DRAFT] and an empty dict. *)
Definition __init__ : EmailWorkflowToolkit :=
  {| workflow_state := DRAFT; email_draft := ∅ |}.

(** ** Methods: state and exceptions *)

Inductive exn := KeyError (key : string).

Inductive outcome (A : Type) :=
  | Return (a : A)
  | Raise (e : exn).
Arguments Return {A} a.
Arguments Raise {A} e.

Definition method (A : Type) : Type :=
  EmailWorkflowToolkit → outcome A * EmailWorkflowToolkit.

Global Instance method_ret : MRet method := λ A a self, (Return a, self).

Global Instance method_bind : MBind method := λ A B f m self,
  match m self with
  | (Return a, self') => f a self'
  | (Raise e, self') => (Raise e, self')
  end.

Global Instance method_throw : MThrow exn method := λ A e self, (Raise e, self).

Definition get_workflow_state : method WorkflowState :=
  λ self, (Return (workflow_state self), self).

Definition set_workflow_state (st : WorkflowState) : method () :=
  λ self, (Return (), {| workflow_state := st; email_draft := email_draft self |}).

Definition get_email_draft : method (gmap string str) :=
  λ self, (Return (email_draft self), self).

Definition set_email_draft (d : gmap string str) : method () :=
  λ self, (Return (), {| workflow_state := workflow_state self; email_draft := d |}).

(** [self.email_draft[key]] *)
Definition getitem (key : string) : method str :=
  d ← get_email_draft;
  match d !! key with
  | Some v => mret v
  | None => mthrow (KeyError key)
  end.

(** [not self.email_draft]: an empty dict is false. *)
Definition no_draft (d : gmap string str) : bool := bool_decide (d = ∅).

(** ** The methods of [EmailWorkflowToolkit] *)

Section Workflow.

Context {case_tables : UnicodeCase}.

(** The dict [templates] of [draft_email], built from the two arguments
    bound into its f-strings. *)
Definition templates (recipient subject : str) : gmap str str :=
  {[ py "follow-up" := lines [
       py "Dear " ++ recipient ++ py ",";
       [];
       py "I hope this email finds you well. I wanted to follow up on our recent conversation regarding " ++ subject ++ py ".";
       [];
       py "Please let me know if you have any questions or if there's anything I can help clarify.";
       [];
       py "Best regards,";
       py "ACME Corporation" ];
     py "proposal" := lines [
       py "Dear " ++ recipient ++ py ",";
       [];
       py "Thank you for your interest in ACME Corporation's services. I'm pleased to present our proposal for " ++ subject ++ py ".";
       [];
       py "We believe our solution can provide significant value to your organization. I'd be happy to schedule a call to discuss the details.";
       [];
       py "Best regards,";
       py "ACME Corporation" ];
     py "support" := lines [
       py "Dear " ++ recipient ++ py ",";
       [];
       py "Thank you for contacting ACME Corporation support regarding " ++ subject ++ py ".";
       [];
       py "We've reviewed your request and are working on a solution. I'll keep you updated on our progress.";
       [];
       py "If you have any urgent concerns, please don't hesitate to reach out.";
       [];
       py "Best regards,";
       py "ACME Support Team" ] ]}.

(** The texts [templates] holds under its three keys, each for the
    recipient and subject bound into it. *)
Definition follow_up_body (recipient subject : str) : str :=
  lines [
    py "Dear " ++ recipient ++ py ",";
    [];
    py "I hope this email finds you well. I wanted to follow up on our recent conversation regarding " ++ subject ++ py ".";
    [];
    py "Please let me know if you have any questions or if there's anything I can help clarify.";
    [];
    py "Best regards,";
    py "ACME Corporation" ].

Definition proposal_body (recipient subject : str) : str :=
  lines [
    py "Dear " ++ recipient ++ py ",";
    [];
    py "Thank you for your interest in ACME Corporation's services. I'm pleased to present our proposal for " ++ subject ++ py ".";
    [];
    py "We believe our solution can provide significant value to your organization. I'd be happy to schedule a call to discuss the details.";
    [];
    py "Best regards,";
    py "ACME Corporation" ].

Definition support_body (recipient subject : str) : str :=
  lines [
    py "Dear " ++ recipient ++ py ",";
    [];
    py "Thank you for contacting ACME Corporation support regarding " ++ subject ++ py ".";
    [];
    py "We've reviewed your request and are working on a solution. I'll keep you updated on our progress.";
    [];
    py "If you have any urgent concerns, please don't hesitate to reach out.";
    [];
    py "Best regards,";
    py "ACME Support Team" ].

(** The body of the [else] branch, used when the purpose is no key of
    [templates]. *)
Definition generic_body (recipient subject : str) : str :=
  lines [
    py "Dear " ++ recipient ++ py ",";
    [];
    py "Thank you for your message regarding " ++ subject ++ py ".";
    [];
    py "I'll get back to you with more information shortly.";
    [];
    py "Best regards,";
    py "ACME Corporation" ].

Definition email_body (recipient subject purpose : str) : str :=
  match templates recipient subject !! lower purpose with
  | Some template => template
  | None => generic_body recipient subject
  end.

Definition draft_email (recipient subject purpose : str) : method str :=
  let email_body := email_body recipient subject purpose in
  set_email_draft {[ "recipient" := recipient;
                     "subject" := subject;
                     "body" := email_body;
                     "purpose" := purpose ]} ;;
  set_workflow_state DRAFT ;;
  st ← get_workflow_state;
  mret (py "📝 Email draft created:" ++ nl ++ nl ++
        py "To: " ++ recipient ++ nl ++
        py "Subject: " ++ subject ++ nl ++ nl ++
        email_body ++ nl ++ nl ++
        py "✅ Status: " ++ value st).

(** The list [review_points] that [review_email] builds by successive
    [append]s; [feedback] is [None] when the argument is omitted. *)
Definition review_points (subject body : str) (feedback : option str) : list str :=
  let review_points := [] in
  let review_points :=
    if len subject <? 5 then review_points ++ [py "📧 Subject line seems too short"]
    else if 50 <? len subject then review_points ++ [py "📧 Subject line might be too long"]
    else review_points in
  let review_points :=
    if len body <? 50 then review_points ++ [py "📝 Email body seems very brief"]
    else if negb (contains (py "ACME Corporation") body)
    then review_points ++ [py "🏢 Consider adding company branding"]
    else review_points in
  let review_points :=
    match feedback with
    | Some text =>
        if truthy text then review_points ++ [py "💭 Human feedback: " ++ text]
        else review_points
    | None => review_points
    end in
  match review_points with
  | [] => review_points ++ [py "✅ Email looks good, ready for approval"]
  | _ :: _ => review_points
  end.

Definition review_email (feedback : option str) : method str :=
  d ← get_email_draft;
  if no_draft d then
    mret (py "❌ No email draft to review. Please create a draft first.")
  else
    set_workflow_state REVIEW ;;
    subject ← getitem "subject";
    body ← getitem "body";
    let review_points := review_points subject body feedback in
    let review_summary := join nl ((λ point, py "• " ++ point) <$> review_points) in
    st ← get_workflow_state;
    mret (py "🔍 Email Review Complete:" ++ nl ++ nl ++
          review_summary ++ nl ++ nl ++
          py "✅ Status: " ++ value st).

Definition approve_email (approved : bool) : method str :=
  d ← get_email_draft;
  if no_draft d then mret (py "❌ No email draft to approve.")
  else
    st ← get_workflow_state;
    if bool_decide (st ≠ REVIEW) then
      mret (py "❌ Email must be reviewed before approval.")
    else if approved then
      set_workflow_state APPROVED ;;
      recipient ← getitem "recipient";
      st ← get_workflow_state;
      mret (py "✅ Email approved for sending!" ++ nl ++ nl ++
            py "📧 Ready to send to: " ++ recipient ++ nl ++
            py "✅ Status: " ++ value st)
    else
      set_workflow_state DRAFT ;;
      st ← get_workflow_state;
      mret (py "❌ Email rejected. Please revise the draft." ++ nl ++
            py "✅ Status: " ++ value st).

Definition send_email : method str :=
  d ← get_email_draft;
  if no_draft d then mret (py "❌ No email draft to send.")
  else
    st ← get_workflow_state;
    if bool_decide (st ≠ APPROVED) then
      mret (py "❌ Email must be approved before sending.")
    else
      set_workflow_state SENT ;;
      recipient ← getitem "recipient";
      subject ← getitem "subject";
      st ← get_workflow_state;
      mret (lines [
        py "📧 Email sent successfully!";
        [];
        py "To: " ++ recipient;
        py "Subject: " ++ subject;
        py "Time: Just now";
        [];
        py "✅ Status: " ++ value st;
        [];
        py "🎉 Workflow completed successfully!" ]).

(** The dict [next_steps]; [COMPLETED] is no key of it. *)
Definition next_steps (st : WorkflowState) : option str :=
  match st with
  | DRAFT => Some (py "🔍 Next: Review the email")
  | REVIEW => Some (py "✅ Next: Approve or reject the email")
  | APPROVED => Some (py "📧 Next: Send the email")
  | SENT => Some (py "🎉 Workflow completed!")
  | COMPLETED => None
  end.

Definition get_workflow_status : method str :=
  d ← get_email_draft;
  if no_draft d then
    mret (py "📋 Workflow Status: No active workflow" ++ nl ++ nl ++
          py "🚀 Next: Create an email draft")
  else
    st ← get_workflow_state;
    recipient ← getitem "recipient";
    subject ← getitem "subject";
    purpose ← getitem "purpose";
    st' ← get_workflow_state;
    mret (lines [
      py "📋 Current Workflow Status: " ++ upper (value st);
      [];
      py "📧 Email Details:";
      py "• To: " ++ recipient;
      py "• Subject: " ++ subject;
      py "• Purpose: " ++ purpose;
      [];
      default (py "Unknown next step") (next_steps st') ]).

(** ** Calls and reachable states *)

(** A call of one of the five registered tools.  The argument of
    [approve_email] may be left out, and is then its default [True]. *)
Inductive call :=
  | call_draft_email (recipient subject purpose : str)
  | call_review_email (feedback : option str)
  | call_approve_email (approved : option bool)
  | call_send_email
  | call_get_workflow_status.

Definition approved_default : bool := true.

Definition invoke (c : call) : method str :=
  match c with
  | call_draft_email recipient subject purpose => draft_email recipient subject purpose
  | call_review_email feedback => review_email feedback
  | call_approve_email approved => approve_email (default approved_default approved)
  | call_send_email => send_email
  | call_get_workflow_status => get_workflow_status
  end.

(** The object after a sequence of calls; a raised exception leaves the
    object as it is at that point, and the next call proceeds from there. *)
Definition run (calls : list call) (self : EmailWorkflowToolkit) : EmailWorkflowToolkit :=
  foldl (λ self c, (invoke c self).2) self calls.

Inductive reachable : EmailWorkflowToolkit → Prop :=
  | reachable_init : reachable __init__
  | reachable_call self c : reachable self → reachable (invoke c self).2.

(** ** Failures

    The methods raise nothing of their own: a refused call returns a
    message and leaves the object alone.  The specification names these
    failures [NoDraftError], [InvalidTransitionError] and
    [ValidationError]; [error_of] reads the name off the returned message.
    The source has no message for the third. *)
Inductive error := NoDraftError | InvalidTransitionError | ValidationError.

Global Instance error_eq_dec : EqDecision error.
Proof. solve_decision. Defined.

Definition no_draft_messages : list str :=
  [ py "❌ No email draft to review. Please create a draft first.";
    py "❌ No email draft to approve.";
    py "❌ No email draft to send." ].

Definition invalid_transition_messages : list str :=
  [ py "❌ Email must be reviewed before approval.";
    py "❌ Email must be approved before sending." ].

Definition error_of (message : str) : option error :=
  if decide (message ∈ no_draft_messages) then Some NoDraftError
  else if decide (message ∈ invalid_transition_messages) then Some InvalidTransitionError
  else None.

(** The failure a call signalled, if any, and whether it went through. *)
Definition signalled (r : outcome str * EmailWorkflowToolkit) : option error :=
  match r.1 with
  | Return message => error_of message
  | Raise _ => None
  end.

Definition succeeded (r : outcome str * EmailWorkflowToolkit) : bool :=
  match r.1 with
  | Return message => bool_decide (error_of message = None)
  | Raise _ => false
  end.

(** ** Shapes of the draft and of the returned texts *)

(** The dict literal that [draft_email] assigns. *)
Definition draft_dict (recipient subject body purpose : str) : gmap string str :=
  {[ "recipient" := recipient; "subject" := subject;
     "body" := body; "purpose" := purpose ]}.

(** The draft is the empty dict of [__init__] or a dict written by
    [draft_email]. *)
Definition well_formed (self : EmailWorkflowToolkit) : Prop :=
  email_draft self = ∅ ∨
  ∃ recipient subject body purpose,
    email_draft self = draft_dict recipient subject body purpose.

Definition created_message (recipient subject body : str) : str :=
  py "📝 Email draft created:" ++ nl ++ nl ++
  py "To: " ++ recipient ++ nl ++
  py "Subject: " ++ subject ++ nl ++ nl ++
  body ++ nl ++ nl ++
  py "✅ Status: " ++ py "draft".

Definition review_report (findings : list str) : str :=
  py "🔍 Email Review Complete:" ++ nl ++ nl ++
  join nl ((λ point, py "• " ++ point) <$> findings) ++ nl ++ nl ++
  py "✅ Status: " ++ py "review".

Definition approved_message (recipient : str) : str :=
  py "✅ Email approved for sending!" ++ nl ++ nl ++
  py "📧 Ready to send to: " ++ recipient ++ nl ++
  py "✅ Status: " ++ py "approved".

Definition rejected_message : str :=
  py "❌ Email rejected. Please revise the draft." ++ nl ++
  py "✅ Status: " ++ py "draft".

Definition sent_message (recipient subject : str) : str :=
  lines [
    py "📧 Email sent successfully!";
    [];
    py "To: " ++ recipient;
    py "Subject: " ++ subject;
    py "Time: Just now";
    [];
    py "✅ Status: " ++ py "sent";
    [];
    py "🎉 Workflow completed successfully!" ].

(** ** The review findings as the specification words them *)

Definition subject_flags (subject : str) : list str :=
  if len subject <? 5 then [py "📧 Subject line seems too short"]
  else if 50 <? len subject then [py "📧 Subject line might be too long"]
  else [].

Definition body_flags (body : str) : list str :=
  if len body <? 50 then [py "📝 Email body seems very brief"]
  else if contains (py "ACME Corporation") body then []
  else [py "🏢 Consider adding company branding"].

Definition looks_good : str := py "✅ Email looks good, ready for approval".

(** The findings as the specification lists them: the flags, a single
    "looks good" when there is no flag, and then the feedback, verbatim. *)
Definition findings_spec (subject body : str) (feedback : option str) : list str :=
  let flags := subject_flags subject ++ body_flags body in
  (match flags with [] => [looks_good] | _ :: _ => flags end) ++
  match feedback with
  | Some text => if truthy text then [text] else []
  | None => []
  end.

(** The feedback finding of the source: the text behind a fixed prefix. *)
Definition feedback_finding (feedback : option str) : list str :=
  match feedback with
  | Some text => if truthy text then [py "💭 Human feedback: " ++ text] else []
  | None => []
  end.

(** ** Sample runs *)

(** The run of the specification's happy path, up to the sending. *)
Definition happy_path : list call :=
  [ call_draft_email (py "a@b.com") (py "Q1 Sync") (py "follow-up");
    call_review_email None;
    call_approve_email (Some true);
    call_send_email ].

Definition sent_sample : EmailWorkflowToolkit := run happy_path __init__.

Definition draft_sample : EmailWorkflowToolkit :=
  run [call_draft_email (py "a@b.com") (py "Q1 Sync") (py "follow-up")] __init__.

Definition review_sample : EmailWorkflowToolkit :=
  run [call_review_email None] draft_sample.

Definition approved_sample : EmailWorkflowToolkit :=
  run [call_approve_email None] review_sample.

(** ** The order of the steps *)

(** What a call asks for: [approve_email] approves with [True] or without
    an argument and rejects with [False]. *)
Inductive step :=
  | step_draft | step_review | step_approve | step_reject | step_send | step_status.

Global Instance step_eq_dec : EqDecision step.
Proof. solve_decision. Defined.

Definition step_of (c : call) : step :=
  match c with
  | call_draft_email _ _ _ => step_draft
  | call_review_email _ => step_review
  | call_approve_email approved =>
      if default approved_default approved then step_approve else step_reject
  | call_send_email => step_send
  | call_get_workflow_status => step_status
  end.

(** The steps an object with a draft has behind it, by its state. *)
Definition steps_behind (self : EmailWorkflowToolkit) : list step :=
  if no_draft (email_draft self) then []
  else match workflow_state self with
       | DRAFT => [step_draft]
       | REVIEW => [step_draft; step_review]
       | APPROVED => [step_draft; step_review; step_approve]
       | SENT => [step_draft; step_review; step_approve; step_send]
       | COMPLETED => []
       end.

(** * Properties *)

(** ** Strings *)

Example py_cross_mark : py "❌" = [10060].
Proof. reflexivity. Qed.

Example py_bullet_ascii : py "• To:" = [8226; 32; 84; 111; 58].
Proof. reflexivity. Qed.

Example py_memo : py "📝" = [128221].
Proof. reflexivity. Qed.

Lemma lower_ascii (s : str) :
  forallb is_ascii s = true → lower s = ascii_lower <$> s.
Proof. intros Hs. unfold lower. by rewrite Hs. Qed.

(** Every message that names a failure starts with the cross mark. *)
Lemma error_of_head (message : str) :
  hd 0 message ≠ 10060 → error_of message = None.
Proof.
  intros Hhd. unfold error_of.
  destruct (decide (message ∈ no_draft_messages)) as [Hin|_].
  { exfalso. apply Hhd. unfold no_draft_messages in Hin.
    rewrite !elem_of_cons in Hin.
    destruct Hin as [->|[->|[->|Hin]]]; [reflexivity..|by apply elem_of_nil in Hin]. }
  destruct (decide (message ∈ invalid_transition_messages)) as [Hin|_]; [|done].
  exfalso. apply Hhd. unfold invalid_transition_messages in Hin.
  rewrite !elem_of_cons in Hin.
  destruct Hin as [->|[->|Hin]]; [reflexivity..|by apply elem_of_nil in Hin].
Qed.

(** ** What each method returns and leaves *)

Ltac run_method :=
  cbv beta iota zeta delta
    [mbind method_bind mret method_ret mthrow method_throw getitem
     get_email_draft get_workflow_state set_workflow_state set_email_draft];
  cbn [email_draft workflow_state value].

Lemma no_draft_true (d : gmap string str) : d = ∅ → no_draft d = true.
Proof. intros ->. reflexivity. Qed.

Lemma no_draft_false (d : gmap string str) : d ≠ ∅ → no_draft d = false.
Proof. intros H. unfold no_draft. by apply bool_decide_eq_false_2. Qed.

Lemma draft_dict_not_empty (r s b p : str) : draft_dict r s b p ≠ ∅.
Proof.
  intros H. apply (f_equal (λ d : gmap string str, d !! "recipient")) in H.
  unfold draft_dict in H. by rewrite lookup_insert_eq, lookup_empty in H.
Qed.

Lemma draft_email_eq (recipient subject purpose : str) (self : EmailWorkflowToolkit) :
  draft_email recipient subject purpose self =
  (Return (created_message recipient subject (email_body recipient subject purpose)),
   Toolkit DRAFT (draft_dict recipient subject (email_body recipient subject purpose) purpose)).
Proof. unfold draft_email, created_message, draft_dict. run_method. reflexivity. Qed.

Lemma review_email_no_draft (feedback : option str) (self : EmailWorkflowToolkit) :
  email_draft self = ∅ →
  review_email feedback self =
  (Return (py "❌ No email draft to review. Please create a draft first."), self).
Proof.
  intros H. unfold review_email. run_method. by rewrite (no_draft_true _ H).
Qed.

Lemma review_email_draft (feedback : option str) (self : EmailWorkflowToolkit)
    (subject body : str) :
  email_draft self ≠ ∅ →
  email_draft self !! "subject" = Some subject →
  email_draft self !! "body" = Some body →
  review_email feedback self =
  (Return (review_report (review_points subject body feedback)),
   Toolkit REVIEW (email_draft self)).
Proof.
  intros Hd Hs Hb. unfold review_email, review_report. run_method.
  rewrite (no_draft_false _ Hd). run_method.
  rewrite Hs. run_method. rewrite Hb. run_method. reflexivity.
Qed.

Lemma approve_email_no_draft (approved : bool) (self : EmailWorkflowToolkit) :
  email_draft self = ∅ →
  approve_email approved self = (Return (py "❌ No email draft to approve."), self).
Proof.
  intros H. unfold approve_email. run_method. by rewrite (no_draft_true _ H).
Qed.

Lemma approve_email_not_reviewed (approved : bool) (self : EmailWorkflowToolkit) :
  email_draft self ≠ ∅ →
  workflow_state self ≠ REVIEW →
  approve_email approved self =
  (Return (py "❌ Email must be reviewed before approval."), self).
Proof.
  intros Hd Hst. unfold approve_email. run_method.
  rewrite (no_draft_false _ Hd). run_method.
  by rewrite (bool_decide_eq_true_2 _ Hst).
Qed.

Lemma approve_email_true (self : EmailWorkflowToolkit) (recipient : str) :
  email_draft self ≠ ∅ →
  workflow_state self = REVIEW →
  email_draft self !! "recipient" = Some recipient →
  approve_email true self =
  (Return (approved_message recipient), Toolkit APPROVED (email_draft self)).
Proof.
  intros Hd Hst Hr. unfold approve_email, approved_message. run_method.
  rewrite (no_draft_false _ Hd), Hst.
  change (bool_decide (REVIEW ≠ REVIEW)) with false. run_method.
  rewrite Hr. run_method. reflexivity.
Qed.

Lemma approve_email_false (self : EmailWorkflowToolkit) :
  email_draft self ≠ ∅ →
  workflow_state self = REVIEW →
  approve_email false self =
  (Return rejected_message, Toolkit DRAFT (email_draft self)).
Proof.
  intros Hd Hst. unfold approve_email, rejected_message. run_method.
  rewrite (no_draft_false _ Hd), Hst.
  change (bool_decide (REVIEW ≠ REVIEW)) with false. run_method. reflexivity.
Qed.

Lemma send_email_no_draft (self : EmailWorkflowToolkit) :
  email_draft self = ∅ →
  send_email self = (Return (py "❌ No email draft to send."), self).
Proof.
  intros H. unfold send_email. run_method. by rewrite (no_draft_true _ H).
Qed.

Lemma send_email_not_approved (self : EmailWorkflowToolkit) :
  email_draft self ≠ ∅ →
  workflow_state self ≠ APPROVED →
  send_email self = (Return (py "❌ Email must be approved before sending."), self).
Proof.
  intros Hd Hst. unfold send_email. run_method.
  rewrite (no_draft_false _ Hd). run_method.
  by rewrite (bool_decide_eq_true_2 _ Hst).
Qed.

Lemma send_email_approved (self : EmailWorkflowToolkit) (recipient subject : str) :
  email_draft self ≠ ∅ →
  workflow_state self = APPROVED →
  email_draft self !! "recipient" = Some recipient →
  email_draft self !! "subject" = Some subject →
  send_email self =
  (Return (sent_message recipient subject), Toolkit SENT (email_draft self)).
Proof.
  intros Hd Hst Hr Hs. unfold send_email, sent_message. run_method.
  rewrite (no_draft_false _ Hd), Hst.
  change (bool_decide (APPROVED ≠ APPROVED)) with false. run_method.
  rewrite Hr. run_method. rewrite Hs. run_method. reflexivity.
Qed.


(** ** What a call can do to the two attributes *)

Ltac split_method :=
  repeat (run_method;
    match goal with
    | |- context [if no_draft ?d then _ else _] => destruct (no_draft d)
    | |- context [if bool_decide ?P then _ else _] => destruct (bool_decide P)
    | |- context [match ?d !! ?k with _ => _ end] => destruct (d !! k)
    | |- context [if ?b then _ else _] => destruct b
    end).

(** Only [draft_email] assigns [self.email_draft]. *)
Lemma invoke_email_draft (c : call) (self : EmailWorkflowToolkit) :
  email_draft (invoke c self).2 = email_draft self ∨
  ∃ recipient subject body purpose,
    email_draft (invoke c self).2 = draft_dict recipient subject body purpose.
Proof.
  destruct c as [r s p|fb|a| |]; cbn [invoke].
  - right. rewrite draft_email_eq. by eexists _, _, _, _.
  - left. unfold review_email. split_method; reflexivity.
  - left. unfold approve_email. split_method; reflexivity.
  - left. unfold send_email. split_method; reflexivity.
  - left. unfold get_workflow_status. split_method; reflexivity.
Qed.

(** A call leaves [self.workflow_state] alone or assigns one of the four
    members [DRAFT], [REVIEW], [APPROVED], [SENT]. *)
Lemma invoke_workflow_state (c : call) (self : EmailWorkflowToolkit) :
  workflow_state (invoke c self).2 = workflow_state self ∨
  workflow_state (invoke c self).2 ∈ [DRAFT; REVIEW; APPROVED; SENT].
Proof.
  destruct c as [r s p|fb|a| |]; cbn [invoke].
  - right. rewrite draft_email_eq. set_solver.
  - unfold review_email. split_method; cbn [snd workflow_state]; auto; right; set_solver.
  - unfold approve_email. split_method; cbn [snd workflow_state]; auto; right; set_solver.
  - unfold send_email. split_method; cbn [snd workflow_state]; auto; right; set_solver.
  - unfold get_workflow_status. split_method; cbn [snd workflow_state]; auto; right; set_solver.
Qed.

(** ** Reachable objects *)

Lemma reachable_run (calls : list call) (self : EmailWorkflowToolkit) :
  reachable self → reachable (run calls self).
Proof.
  revert self. induction calls as [|c calls IH]; intros self Hself; [done|].
  unfold run. cbn [foldl]. apply IH. by constructor.
Qed.

Lemma draft_dict_lookup (recipient subject body purpose : str) :
  draft_dict recipient subject body purpose !! "recipient" = Some recipient ∧
  draft_dict recipient subject body purpose !! "subject" = Some subject ∧
  draft_dict recipient subject body purpose !! "body" = Some body ∧
  draft_dict recipient subject body purpose !! "purpose" = Some purpose.
Proof. unfold draft_dict. repeat split; by simplify_map_eq. Qed.

Lemma reachable_well_formed (self : EmailWorkflowToolkit) :
  reachable self → well_formed self.
Proof.
  induction 1 as [|self c _ IH]; [by left|].
  unfold well_formed in *.
  destruct (invoke_email_draft c self) as [->|Hnew]; [done|by right].
Qed.

(** The object has state [DRAFT] as long as no draft was written. *)
Lemma reachable_no_draft_state (self : EmailWorkflowToolkit) :
  reachable self → email_draft self = ∅ → workflow_state self = DRAFT.
Proof.
  induction 1 as [|self c _ IH]; [done|].
  destruct c as [r s p|fb|a| |]; cbn [invoke].
  - rewrite draft_email_eq. done.
  - destruct (decide (email_draft self = ∅)) as [He|Hne].
    + rewrite (review_email_no_draft _ _ He). auto.
    + intros Hd. destruct (invoke_email_draft (call_review_email fb) self) as [Heq|(?&?&?&?&Heq)];
        cbn [invoke] in Heq; rewrite Heq in Hd; [done|].
      by destruct (draft_dict_not_empty _ _ _ _ Hd).
  - destruct (decide (email_draft self = ∅)) as [He|Hne].
    + rewrite (approve_email_no_draft _ _ He). auto.
    + intros Hd. destruct (invoke_email_draft (call_approve_email a) self) as [Heq|(?&?&?&?&Heq)];
        cbn [invoke] in Heq; rewrite Heq in Hd; [done|].
      by destruct (draft_dict_not_empty _ _ _ _ Hd).
  - destruct (decide (email_draft self = ∅)) as [He|Hne].
    + rewrite (send_email_no_draft _ He). auto.
    + intros Hd. destruct (invoke_email_draft call_send_email self) as [Heq|(?&?&?&?&Heq)];
        cbn [invoke] in Heq; rewrite Heq in Hd; [done|].
      by destruct (draft_dict_not_empty _ _ _ _ Hd).
  - assert ((get_workflow_status self).2 = self) as ->; [|done].
    unfold get_workflow_status. split_method; reflexivity.
Qed.

(** A reachable object with a draft has the four keys. *)
Lemma reachable_draft_keys (self : EmailWorkflowToolkit) :
  reachable self → email_draft self ≠ ∅ →
  ∃ recipient subject body purpose,
    email_draft self = draft_dict recipient subject body purpose.
Proof.
  intros Hr Hd. by destruct (reachable_well_formed _ Hr) as [?|?].
Qed.

(** ** The state machine *)

Lemma completed_not_listed : COMPLETED ∉ [DRAFT; REVIEW; APPROVED; SENT].
Proof. rewrite !not_elem_of_cons. repeat split; [discriminate..|apply not_elem_of_nil]. Qed.

(** C9: on every reachable object the state is one of [DRAFT], [REVIEW],
    [APPROVED], [SENT]; the declared member [COMPLETED] is not reachable
    from [__init__], and no call assigns it (an object is in [COMPLETED]
    after a call only if it was before). *)
Theorem completed_never_assigned (self : EmailWorkflowToolkit) :
  reachable self →
  workflow_state self ∈ [DRAFT; REVIEW; APPROVED; SENT] ∧
  workflow_state self ≠ COMPLETED ∧
  (∀ (c : call) (pre : EmailWorkflowToolkit),
     workflow_state (invoke c pre).2 = COMPLETED → workflow_state pre = COMPLETED).
Proof.
  intros Hr.
  assert (Hcalls : ∀ (c : call) (pre : EmailWorkflowToolkit),
    workflow_state (invoke c pre).2 = COMPLETED → workflow_state pre = COMPLETED).
  { intros c pre Hc. destruct (invoke_workflow_state c pre) as [Heq|Hin].
    - by rewrite <- Heq.
    - rewrite Hc in Hin. by destruct completed_not_listed. }
  assert (Hin : workflow_state self ∈ [DRAFT; REVIEW; APPROVED; SENT]).
  { induction Hr as [|self c _ IH]; [set_solver|].
    destruct (invoke_workflow_state c self) as [->|Hin]; done. }
  split; [done|]. split; [|done].
  intros Hc. rewrite Hc in Hin. by destruct completed_not_listed.
Qed.

(** C1 (as amended): while a draft exists, [approve_email] called in a
    state other than [REVIEW] and [send_email] called in a state other than
    [APPROVED] return the message of an invalid transition; without a draft
    both return the message of a missing draft instead.  In all four cases
    the object is left exactly as it was. *)
Theorem refused_calls_change_nothing (self : EmailWorkflowToolkit) (approved : bool) :
  (email_draft self ≠ ∅ → workflow_state self ≠ REVIEW →
     approve_email approved self =
       (Return (py "❌ Email must be reviewed before approval."), self) ∧
     signalled (approve_email approved self) = Some InvalidTransitionError) ∧
  (email_draft self ≠ ∅ → workflow_state self ≠ APPROVED →
     send_email self =
       (Return (py "❌ Email must be approved before sending."), self) ∧
     signalled (send_email self) = Some InvalidTransitionError) ∧
  (email_draft self = ∅ →
     approve_email approved self = (Return (py "❌ No email draft to approve."), self) ∧
     signalled (approve_email approved self) = Some NoDraftError ∧
     send_email self = (Return (py "❌ No email draft to send."), self) ∧
     signalled (send_email self) = Some NoDraftError).
Proof.
  split; [|split].
  - intros Hd Hst. rewrite (approve_email_not_reviewed _ _ Hd Hst). by split.
  - intros Hd Hst. rewrite (send_email_not_approved _ Hd Hst). by split.
  - intros Hd. rewrite (approve_email_no_draft _ _ Hd), (send_email_no_draft _ Hd).
    by repeat split.
Qed.

(** ** Returned texts that name no failure *)

Lemma created_message_no_error (recipient subject body : str) :
  error_of (created_message recipient subject body) = None.
Proof. apply error_of_head. lazy. discriminate. Qed.

Lemma review_report_no_error (findings : list str) :
  error_of (review_report findings) = None.
Proof. apply error_of_head. lazy. discriminate. Qed.

Lemma approved_message_no_error (recipient : str) :
  error_of (approved_message recipient) = None.
Proof. apply error_of_head. lazy. discriminate. Qed.

Lemma sent_message_no_error (recipient subject : str) :
  error_of (sent_message recipient subject) = None.
Proof. apply error_of_head. lazy. discriminate. Qed.

Lemma rejected_message_no_error : error_of rejected_message = None.
Proof. vm_compute. reflexivity. Qed.

Lemma draft_email_succeeded (recipient subject purpose : str) (self : EmailWorkflowToolkit) :
  succeeded (draft_email recipient subject purpose self) = true ∧
  signalled (draft_email recipient subject purpose self) = None.
Proof.
  rewrite draft_email_eq. unfold succeeded, signalled. cbn [fst].
  rewrite created_message_no_error. by split.
Qed.

(** ** Drafting *)

Lemma email_body_unknown (recipient subject purpose : str) :
  lower purpose ∉ [py "follow-up"; py "proposal"; py "support"] →
  email_body recipient subject purpose = generic_body recipient subject.
Proof.
  rewrite !not_elem_of_cons. intros (Hf & Hp & Hs & _).
  unfold email_body, templates.
  rewrite lookup_insert_ne by done.
  rewrite lookup_insert_ne by done.
  by rewrite lookup_singleton_ne by done.
Qed.

(** C2: whatever the object was before, [draft_email] with a non-empty
    recipient and subject goes through, replaces the draft by the freshly
    generated one and sets the state to [DRAFT].  Both attributes of the
    object are overwritten, so the object is the one a new toolkit would be
    after the same call: nothing of an earlier draft or review is left. *)
Theorem draft_email_total_reset (self : EmailWorkflowToolkit)
    (recipient subject purpose : str) :
  recipient ≠ [] → subject ≠ [] →
  draft_email recipient subject purpose self =
    (Return (created_message recipient subject (email_body recipient subject purpose)),
     {| workflow_state := DRAFT;
        email_draft := draft_dict recipient subject
                         (email_body recipient subject purpose) purpose |}) ∧
  succeeded (draft_email recipient subject purpose self) = true ∧
  (draft_email recipient subject purpose self).2 =
    (draft_email recipient subject purpose __init__).2 ∧
  ∀ other : EmailWorkflowToolkit,
    (draft_email recipient subject purpose self).2 =
    (draft_email recipient subject purpose other).2.
Proof.
  intros _ _. split; [apply draft_email_eq|].
  split; [apply draft_email_succeeded|].
  split; [by rewrite !draft_email_eq|].
  intros other. by rewrite !draft_email_eq.
Qed.

(** C6 (as amended): [draft_email] validates nothing.  For every recipient
    and subject, the empty strings included, it goes through, stores the
    draft with the arguments as given and names no failure; no returned
    message of the toolkit stands for a validation error. *)
Theorem draft_email_never_refuses (self : EmailWorkflowToolkit)
    (recipient subject purpose : str) :
  succeeded (draft_email recipient subject purpose self) = true ∧
  signalled (draft_email recipient subject purpose self) = None ∧
  workflow_state (draft_email recipient subject purpose self).2 = DRAFT ∧
  email_draft (draft_email recipient subject purpose self).2 !! "recipient" = Some recipient ∧
  email_draft (draft_email recipient subject purpose self).2 !! "subject" = Some subject ∧
  ∀ message : str, error_of message ≠ Some ValidationError.
Proof.
  destruct (draft_email_succeeded recipient subject purpose self) as [Hok Hsig].
  split; [done|]. split; [done|].
  rewrite draft_email_eq. cbn [snd workflow_state email_draft].
  destruct (draft_dict_lookup recipient subject
              (email_body recipient subject purpose) purpose) as (Hr & Hs & _).
  repeat split; [done..|].
  intros message. unfold error_of. by repeat case_decide.
Qed.

Lemma templates_keys (recipient subject : str) :
  templates recipient subject !! py "follow-up" = Some (follow_up_body recipient subject) ∧
  templates recipient subject !! py "proposal" = Some (proposal_body recipient subject) ∧
  templates recipient subject !! py "support" = Some (support_body recipient subject).
Proof.
  assert (Hfp : py "follow-up" ≠ py "proposal") by (vm_compute; discriminate).
  assert (Hfs : py "follow-up" ≠ py "support") by (vm_compute; discriminate).
  assert (Hps : py "proposal" ≠ py "support") by (vm_compute; discriminate).
  unfold templates, follow_up_body, proposal_body, support_body. split_and!.
  - by rewrite lookup_insert_eq.
  - rewrite lookup_insert_ne by done. by rewrite lookup_insert_eq.
  - rewrite lookup_insert_ne by done. rewrite lookup_insert_ne by done.
    by rewrite lookup_singleton_eq.
Qed.

(** C8: a purpose whose lower-cased form is none of the three keys of
    [templates] is no error: [draft_email] goes through with the generic
    body.  The three keys "follow-up", "proposal" and "support" are matched
    against the lower-cased purpose: an ASCII purpose that differs from one
    of them only in the case of its letters gets the text of that key, and
    [draft_email] stores that text as the body. *)
Theorem unknown_purpose_generic_body (self : EmailWorkflowToolkit)
    (recipient subject purpose : str) :
  (lower purpose ∉ [py "follow-up"; py "proposal"; py "support"] →
     email_body recipient subject purpose = generic_body recipient subject ∧
     draft_email recipient subject purpose self =
       (Return (created_message recipient subject (generic_body recipient subject)),
        {| workflow_state := DRAFT;
           email_draft := draft_dict recipient subject
                            (generic_body recipient subject) purpose |}) ∧
     succeeded (draft_email recipient subject purpose self) = true) ∧
  (∀ key template : str,
     forallb is_ascii purpose = true →
     ascii_lower <$> purpose = key →
     templates recipient subject !! key = Some template →
     email_body recipient subject purpose = template) ∧
  (forallb is_ascii purpose = true →
     (ascii_lower <$> purpose = py "follow-up" →
        email_body recipient subject purpose = follow_up_body recipient subject) ∧
     (ascii_lower <$> purpose = py "proposal" →
        email_body recipient subject purpose = proposal_body recipient subject) ∧
     (ascii_lower <$> purpose = py "support" →
        email_body recipient subject purpose = support_body recipient subject)) ∧
  email_draft (draft_email recipient subject purpose self).2 !! "body" =
    Some (email_body recipient subject purpose).
Proof.
  assert (Hcase : ∀ key template : str,
            forallb is_ascii purpose = true →
            ascii_lower <$> purpose = key →
            templates recipient subject !! key = Some template →
            email_body recipient subject purpose = template).
  { intros key template Hascii Hkey Hlook.
    unfold email_body. by rewrite (lower_ascii _ Hascii), Hkey, Hlook. }
  destruct (templates_keys recipient subject) as (Hfollow & Hproposal & Hsupport).
  split_and!.
  - intros Hunknown. pose proof (email_body_unknown recipient subject _ Hunknown) as Hbody.
    split; [done|]. split; [|apply draft_email_succeeded].
    by rewrite draft_email_eq, Hbody.
  - exact Hcase.
  - intros Hascii. split_and!; intros Hkey.
    + exact (Hcase _ _ Hascii Hkey Hfollow).
    + exact (Hcase _ _ Hascii Hkey Hproposal).
    + exact (Hcase _ _ Hascii Hkey Hsupport).
  - rewrite draft_email_eq. cbn [snd email_draft].
    by destruct (draft_dict_lookup recipient subject
                   (email_body recipient subject purpose) purpose) as (_ & _ & Hb & _).
Qed.

(** ** Reviewing *)

Lemma review_email_reachable (self : EmailWorkflowToolkit) (feedback : option str) :
  reachable self →
  email_draft self ≠ ∅ →
  ∃ subject body : str,
    email_draft self !! "subject" = Some subject ∧
    email_draft self !! "body" = Some body ∧
    review_email feedback self =
      (Return (review_report (review_points subject body feedback)),
       {| workflow_state := REVIEW; email_draft := email_draft self |}) ∧
    succeeded (review_email feedback self) = true.
Proof.
  intros Hr Hd. destruct (reachable_draft_keys _ Hr Hd) as (r & s & b & p & Hdict).
  destruct (draft_dict_lookup r s b p) as (_ & Hs & Hb & _).
  rewrite <- Hdict in Hs, Hb. exists s, b.
  rewrite (review_email_draft feedback self s b Hd Hs Hb).
  split; [done|]. split; [done|]. split; [done|].
  unfold succeeded. cbn [fst]. by rewrite review_report_no_error.
Qed.

(** C3: on a reachable object with a draft, [review_email] goes through
    and sets the state to [REVIEW] whatever the state was; without a draft
    it returns the message of a missing draft and changes nothing. *)
Theorem review_needs_only_a_draft (self : EmailWorkflowToolkit) (feedback : option str) :
  reachable self →
  (email_draft self ≠ ∅ →
     ∃ subject body : str,
       email_draft self !! "subject" = Some subject ∧
       email_draft self !! "body" = Some body ∧
       review_email feedback self =
         (Return (review_report (review_points subject body feedback)),
          {| workflow_state := REVIEW; email_draft := email_draft self |}) ∧
       succeeded (review_email feedback self) = true) ∧
  (email_draft self = ∅ →
     review_email feedback self =
       (Return (py "❌ No email draft to review. Please create a draft first."), self) ∧
     signalled (review_email feedback self) = Some NoDraftError).
Proof.
  intros Hr. split.
  - intros Hd. by apply review_email_reachable.
  - intros Hd. rewrite (review_email_no_draft _ _ Hd). by split.
Qed.

(** C7 (as amended): the findings of a review are the subject flag (too
    short below 5 characters, too long above 50), then the body flag (too
    brief below 50 characters, otherwise missing branding when the company
    name does not occur in the body), then the non-empty feedback behind
    the prefix "Human feedback: "; the single "looks good" finding stands
    in only when there is neither a flag nor feedback.  [review_email]
    reports exactly these findings. *)
Theorem review_findings (self : EmailWorkflowToolkit) (subject body : str)
    (feedback : option str) :
  email_draft self !! "subject" = Some subject →
  email_draft self !! "body" = Some body →
  review_email feedback self =
    (Return (review_report (review_points subject body feedback)),
     {| workflow_state := REVIEW; email_draft := email_draft self |}) ∧
  review_points subject body feedback =
    match subject_flags subject ++ body_flags body ++ feedback_finding feedback with
    | [] => [looks_good]
    | finding :: findings => finding :: findings
    end.
Proof.
  intros Hs Hb. split.
  - apply review_email_draft; [|done..].
    intros He. by rewrite He, lookup_empty in Hs.
  - unfold review_points, subject_flags, body_flags, feedback_finding, looks_good.
    destruct (len subject <? 5); [|destruct (50 <? len subject)];
      (destruct (len body <? 50);
        [|destruct (contains (py "ACME Corporation") body)]);
      (destruct feedback as [text|]; [destruct (truthy text)|]);
      reflexivity.
Qed.

(** ** Approving, rejecting and sending *)

(** C10: [approve_email] called without its argument behaves as with
    [True]: on a reachable object in state [REVIEW] it goes through and the
    state becomes [APPROVED]. *)
Theorem approve_defaults_to_true (self : EmailWorkflowToolkit) :
  reachable self →
  workflow_state self = REVIEW →
  invoke (call_approve_email None) self = invoke (call_approve_email (Some true)) self ∧
  workflow_state (invoke (call_approve_email None) self).2 = APPROVED ∧
  email_draft (invoke (call_approve_email None) self).2 = email_draft self ∧
  succeeded (invoke (call_approve_email None) self) = true.
Proof.
  intros Hr Hst. split; [reflexivity|].
  assert (Hd : email_draft self ≠ ∅).
  { intros He. by rewrite (reachable_no_draft_state _ Hr He) in Hst. }
  destruct (reachable_draft_keys _ Hr Hd) as (r & s & b & p & Hdict).
  destruct (draft_dict_lookup r s b p) as (Hrec & _).
  rewrite <- Hdict in Hrec.
  cbn [invoke default]. unfold approved_default.
  rewrite (approve_email_true self r Hd Hst Hrec).
  split; [done|]. split; [done|].
  unfold succeeded. cbn [fst]. by rewrite approved_message_no_error.
Qed.

(** C4 (as amended): on a reachable object in state [SENT],
    [approve_email] and [send_email] return the message of an invalid
    transition and [get_workflow_status] only reports, all three leaving
    the object as it is; [review_email] is not refused: it goes through and
    sets the state to [REVIEW]; [draft_email] resets the state to [DRAFT]. *)
Theorem calls_in_sent (self : EmailWorkflowToolkit) :
  reachable self →
  workflow_state self = SENT →
  (∀ approved : bool,
     approve_email approved self =
       (Return (py "❌ Email must be reviewed before approval."), self) ∧
     signalled (approve_email approved self) = Some InvalidTransitionError) ∧
  (send_email self = (Return (py "❌ Email must be approved before sending."), self) ∧
   signalled (send_email self) = Some InvalidTransitionError) ∧
  (get_workflow_status self).2 = self ∧
  (∀ feedback : option str,
     workflow_state (review_email feedback self).2 = REVIEW ∧
     email_draft (review_email feedback self).2 = email_draft self ∧
     succeeded (review_email feedback self) = true) ∧
  (∀ recipient subject purpose : str,
     workflow_state (draft_email recipient subject purpose self).2 = DRAFT).
Proof.
  intros Hr Hst.
  assert (Hd : email_draft self ≠ ∅).
  { intros He. by rewrite (reachable_no_draft_state _ Hr He) in Hst. }
  split; [|split; [|split; [|split]]].
  - intros approved.
    rewrite (approve_email_not_reviewed approved self Hd) by (by rewrite Hst).
    by split.
  - rewrite (send_email_not_approved self Hd) by (by rewrite Hst). by split.
  - unfold get_workflow_status. split_method; reflexivity.
  - intros feedback.
    destruct (review_email_reachable self feedback Hr Hd) as (s & b & _ & _ & Heq & Hok).
    by rewrite Hok, Heq.
  - intros r s p. by rewrite draft_email_eq.
Qed.

(** C5 (as amended): after [draft_email], [review_email] and a rejecting
    [approve_email] the state is [DRAFT] and the draft is the one the
    [draft_email] call wrote, field for field.  The findings of the review
    are returned in its report and kept nowhere: the object is again
    exactly the object the [draft_email] call left. *)
Theorem rejection_round_trip (self : EmailWorkflowToolkit)
    (recipient subject purpose : str) (feedback : option str) :
  let created := (draft_email recipient subject purpose self).2 in
  let reviewed := review_email feedback created in
  let rejected := approve_email false reviewed.2 in
  reviewed.1 =
    Return (review_report
              (review_points subject (email_body recipient subject purpose) feedback)) ∧
  rejected.1 = Return rejected_message ∧
  workflow_state rejected.2 = DRAFT ∧
  email_draft rejected.2 = email_draft created ∧
  rejected.2 = created.
Proof.
  intros created reviewed rejected. subst rejected reviewed created.
  rewrite draft_email_eq. cbn [snd].
  set (body := email_body recipient subject purpose).
  destruct (draft_dict_lookup recipient subject body purpose) as (_ & Hs & Hb & _).
  pose proof (draft_dict_not_empty recipient subject body purpose) as Hd.
  rewrite (review_email_draft feedback (Toolkit DRAFT _) subject body Hd Hs Hb).
  cbn [fst snd email_draft].
  rewrite (approve_email_false (Toolkit REVIEW _) Hd eq_refl).
  cbn [fst snd email_draft workflow_state]. by split_and!.
Qed.

(** * Further properties of the toolkit *)

(** ** The status report *)

Lemma upper_value (st : WorkflowState) : upper (value st) = ascii_upper <$> value st.
Proof. unfold upper. by destruct st. Qed.

Lemma get_workflow_status_unchanged (self : EmailWorkflowToolkit) :
  (get_workflow_status self).2 = self.
Proof. unfold get_workflow_status. split_method; reflexivity. Qed.

Lemma get_workflow_status_no_draft (self : EmailWorkflowToolkit) :
  email_draft self = ∅ →
  get_workflow_status self =
  (Return (py "📋 Workflow Status: No active workflow" ++ nl ++ nl ++
           py "🚀 Next: Create an email draft"), self).
Proof.
  intros Hd. unfold get_workflow_status. run_method. by rewrite (no_draft_true _ Hd).
Qed.

Lemma get_workflow_status_draft (self : EmailWorkflowToolkit)
    (recipient subject purpose : str) :
  email_draft self ≠ ∅ →
  email_draft self !! "recipient" = Some recipient →
  email_draft self !! "subject" = Some subject →
  email_draft self !! "purpose" = Some purpose →
  get_workflow_status self =
  (Return (lines [
     py "📋 Current Workflow Status: " ++ (ascii_upper <$> value (workflow_state self));
     [];
     py "📧 Email Details:";
     py "• To: " ++ recipient;
     py "• Subject: " ++ subject;
     py "• Purpose: " ++ purpose;
     [];
     default (py "Unknown next step") (next_steps (workflow_state self)) ]), self).
Proof.
  intros Hd Hr Hs Hp. unfold get_workflow_status. run_method.
  rewrite (no_draft_false _ Hd). run_method.
  rewrite Hr. run_method. rewrite Hs. run_method. rewrite Hp. run_method.
  rewrite upper_value. by destruct self.
Qed.

Lemma reachable_state_listed (self : EmailWorkflowToolkit) :
  reachable self → workflow_state self ∈ [DRAFT; REVIEW; APPROVED; SENT].
Proof.
  induction 1 as [|self c _ IH]; [by left|].
  by destruct (invoke_workflow_state c self) as [->|Hin].
Qed.

(** X2: [get_workflow_status] on a reachable object returns and changes
    nothing.  Without a draft it reports that no workflow is active; with a
    draft it reports the state in capitals, the recipient, subject and
    purpose as stored, and the hint that [next_steps] holds for the state:
    the fallback "Unknown next step" is never reported. *)
Theorem status_report (self : EmailWorkflowToolkit) :
  reachable self →
  (email_draft self = ∅ →
     get_workflow_status self =
     (Return (py "📋 Workflow Status: No active workflow" ++ nl ++ nl ++
              py "🚀 Next: Create an email draft"), self)) ∧
  (email_draft self ≠ ∅ →
     ∃ recipient subject purpose hint : str,
       email_draft self !! "recipient" = Some recipient ∧
       email_draft self !! "subject" = Some subject ∧
       email_draft self !! "purpose" = Some purpose ∧
       next_steps (workflow_state self) = Some hint ∧
       hint ≠ py "Unknown next step" ∧
       get_workflow_status self =
       (Return (lines [
          py "📋 Current Workflow Status: " ++ (ascii_upper <$> value (workflow_state self));
          [];
          py "📧 Email Details:";
          py "• To: " ++ recipient;
          py "• Subject: " ++ subject;
          py "• Purpose: " ++ purpose;
          [];
          hint ]), self)).
Proof.
  intros Hreach. split; [apply get_workflow_status_no_draft|].
  intros Hd. destruct (reachable_draft_keys _ Hreach Hd) as (r & s & b & p & Hdict).
  destruct (draft_dict_lookup r s b p) as (Hr & Hs & _ & Hp).
  rewrite <- Hdict in Hr, Hs, Hp.
  pose proof (get_workflow_status_draft self r s p Hd Hr Hs Hp) as Heq.
  pose proof (reachable_state_listed _ Hreach) as Hin.
  assert (Hhint : ∃ hint, next_steps (workflow_state self) = Some hint ∧
                          hint ≠ py "Unknown next step").
  { rewrite !elem_of_cons, elem_of_nil in Hin.
    destruct Hin as [->|[->|[->|[->|[]]]]]; (eexists; split; [reflexivity|]);
      vm_compute; discriminate. }
  destruct Hhint as (hint & Hnext & Hne). exists r, s, p, hint.
  rewrite Hnext in Heq. by split_and!.
Qed.

(** ** Exceptions *)

Lemma review_email_no_subject (feedback : option str) (self : EmailWorkflowToolkit) :
  email_draft self ≠ ∅ →
  email_draft self !! "subject" = None →
  review_email feedback self =
  (Raise (KeyError "subject"), Toolkit REVIEW (email_draft self)).
Proof.
  intros Hd Hs. unfold review_email. run_method.
  rewrite (no_draft_false _ Hd). run_method. by rewrite Hs.
Qed.

Lemma review_email_no_body (feedback : option str) (self : EmailWorkflowToolkit)
    (subject : str) :
  email_draft self ≠ ∅ →
  email_draft self !! "subject" = Some subject →
  email_draft self !! "body" = None →
  review_email feedback self =
  (Raise (KeyError "body"), Toolkit REVIEW (email_draft self)).
Proof.
  intros Hd Hs Hb. unfold review_email. run_method.
  rewrite (no_draft_false _ Hd). run_method. rewrite Hs. run_method. by rewrite Hb.
Qed.

(** X1: no call raises on a reachable object: each of the five tools
    returns a text. *)
Theorem reachable_calls_return (self : EmailWorkflowToolkit) (c : call) :
  reachable self → ∃ message : str, (invoke c self).1 = Return message.
Proof.
  intros Hreach.
  destruct (decide (email_draft self = ∅)) as [He|Hd].
  { destruct c as [r s p|fb|a| |]; cbn [invoke].
    - rewrite draft_email_eq. by eexists.
    - rewrite (review_email_no_draft _ _ He). by eexists.
    - rewrite (approve_email_no_draft _ _ He). by eexists.
    - rewrite (send_email_no_draft _ He). by eexists.
    - rewrite (get_workflow_status_no_draft _ He). by eexists. }
  destruct (reachable_draft_keys _ Hreach Hd) as (r & s & b & p & Hdict).
  destruct (draft_dict_lookup r s b p) as (Hr & Hs & Hb & Hp).
  rewrite <- Hdict in Hr, Hs, Hb, Hp.
  destruct c as [r' s' p'|fb|a| |]; cbn [invoke].
  - rewrite draft_email_eq. by eexists.
  - rewrite (review_email_draft fb self s b Hd Hs Hb). by eexists.
  - destruct (decide (workflow_state self = REVIEW)) as [Hst|Hst].
    + destruct (default approved_default a).
      * rewrite (approve_email_true self r Hd Hst Hr). by eexists.
      * rewrite (approve_email_false self Hd Hst). by eexists.
    + rewrite (approve_email_not_reviewed _ self Hd Hst). by eexists.
  - destruct (decide (workflow_state self = APPROVED)) as [Hst|Hst].
    + rewrite (send_email_approved self r s Hd Hst Hr Hs). by eexists.
    + rewrite (send_email_not_approved self Hd Hst). by eexists.
  - rewrite (get_workflow_status_draft self r s p Hd Hr Hs Hp). by eexists.
Qed.

(** X4: when the draft dict is not empty but lacks a key a method reads,
    the method raises [KeyError] for that key after it has assigned the new
    state: the state is changed although the call failed. *)
Theorem missing_key_raises_after_assignment (self : EmailWorkflowToolkit) :
  email_draft self ≠ ∅ →
  (∀ feedback : option str,
     email_draft self !! "subject" = None →
     review_email feedback self =
     (Raise (KeyError "subject"),
      {| workflow_state := REVIEW; email_draft := email_draft self |})) ∧
  (∀ (feedback : option str) (subject : str),
     email_draft self !! "subject" = Some subject →
     email_draft self !! "body" = None →
     review_email feedback self =
     (Raise (KeyError "body"),
      {| workflow_state := REVIEW; email_draft := email_draft self |})) ∧
  (workflow_state self = REVIEW →
   email_draft self !! "recipient" = None →
     approve_email true self =
     (Raise (KeyError "recipient"),
      {| workflow_state := APPROVED; email_draft := email_draft self |})) ∧
  (workflow_state self = APPROVED →
   email_draft self !! "recipient" = None →
     send_email self =
     (Raise (KeyError "recipient"),
      {| workflow_state := SENT; email_draft := email_draft self |})).
Proof.
  intros Hd. split_and!.
  - intros fb Hs. by apply review_email_no_subject.
  - intros fb s Hs Hb. by apply (review_email_no_body fb self s).
  - intros Hst Hr. unfold approve_email. run_method.
    rewrite (no_draft_false _ Hd), Hst.
    change (bool_decide (REVIEW ≠ REVIEW)) with false. run_method. by rewrite Hr.
  - intros Hst Hr. unfold send_email. run_method.
    rewrite (no_draft_false _ Hd), Hst.
    change (bool_decide (APPROVED ≠ APPROVED)) with false. run_method. by rewrite Hr.
Qed.

(** ** The draft *)

Lemma invoke_keeps_draft (c : call) (self : EmailWorkflowToolkit) :
  step_of c ≠ step_draft → email_draft (invoke c self).2 = email_draft self.
Proof.
  intros Hc. destruct c as [r s p|fb|a| |]; cbn [invoke]; [done|..].
  - unfold review_email. split_method; reflexivity.
  - unfold approve_email. split_method; reflexivity.
  - unfold send_email. split_method; reflexivity.
  - by rewrite get_workflow_status_unchanged.
Qed.

(** X3: only [draft_email] writes the draft: every other call leaves the
    dict as it is, whatever it returns or raises, and no call empties a
    dict that holds a draft. *)
Theorem only_draft_email_writes_draft (self : EmailWorkflowToolkit) (c : call) :
  (step_of c ≠ step_draft → email_draft (invoke c self).2 = email_draft self) ∧
  (email_draft self ≠ ∅ → email_draft (invoke c self).2 ≠ ∅).
Proof.
  split; [apply invoke_keeps_draft|].
  intros Hd. destruct (invoke_email_draft c self) as [->|(r & s & b & p & ->)]; [done|].
  apply draft_dict_not_empty.
Qed.

(** ** Transitions *)

(** The edges of the state machine: a call leaves the state alone or
    follows one of five edges, each with its guard. *)
Lemma invoke_state_cases (c : call) (self : EmailWorkflowToolkit) :
  workflow_state (invoke c self).2 = workflow_state self ∨
  (step_of c = step_draft ∧ workflow_state (invoke c self).2 = DRAFT) ∨
  (step_of c = step_review ∧ email_draft self ≠ ∅ ∧
     workflow_state (invoke c self).2 = REVIEW) ∨
  (step_of c = step_approve ∧ email_draft self ≠ ∅ ∧
     workflow_state self = REVIEW ∧ workflow_state (invoke c self).2 = APPROVED) ∨
  (step_of c = step_reject ∧ email_draft self ≠ ∅ ∧
     workflow_state self = REVIEW ∧ workflow_state (invoke c self).2 = DRAFT) ∨
  (step_of c = step_send ∧ email_draft self ≠ ∅ ∧
     workflow_state self = APPROVED ∧ workflow_state (invoke c self).2 = SENT).
Proof.
  destruct c as [r s p|fb|a| |]; cbn [invoke step_of].
  - right. left. by rewrite draft_email_eq.
  - destruct (decide (email_draft self = ∅)) as [He|Hd].
    { left. by rewrite (review_email_no_draft _ _ He). }
    right. right. left. split; [done|]. split; [done|].
    unfold review_email. run_method. rewrite (no_draft_false _ Hd).
    split_method; reflexivity.
  - destruct (decide (email_draft self = ∅)) as [He|Hd].
    { left. by rewrite (approve_email_no_draft _ _ He). }
    destruct (decide (workflow_state self = REVIEW)) as [Hst|Hst];
      [|left; by rewrite (approve_email_not_reviewed _ _ Hd Hst)].
    destruct (default approved_default a).
    + do 3 right. left. split_and!; [done..|].
      unfold approve_email. run_method. rewrite (no_draft_false _ Hd), Hst.
      change (bool_decide (REVIEW ≠ REVIEW)) with false.
      split_method; reflexivity.
    + do 4 right. left. split_and!; [done..|].
      by rewrite (approve_email_false _ Hd Hst).
  - destruct (decide (email_draft self = ∅)) as [He|Hd].
    { left. by rewrite (send_email_no_draft _ He). }
    destruct (decide (workflow_state self = APPROVED)) as [Hst|Hst];
      [|left; by rewrite (send_email_not_approved _ Hd Hst)].
    do 5 right. split_and!; [done..|].
    unfold send_email. run_method. rewrite (no_draft_false _ Hd), Hst.
    change (bool_decide (APPROVED ≠ APPROVED)) with false.
    split_method; reflexivity.
  - left. by rewrite get_workflow_status_unchanged.
Qed.

(** X6: the state becomes [SENT] only by [send_email] on an approved
    draft, [APPROVED] only by an approving [approve_email] on a reviewed
    draft, and [REVIEW] only by [review_email] on an object with a draft;
    this holds for every object, reachable or not, and whatever the call
    returns or raises. *)
Theorem state_entered_only_by_its_step (self : EmailWorkflowToolkit) (c : call) :
  (workflow_state (invoke c self).2 = SENT →
     workflow_state self = SENT ∨
     (c = call_send_email ∧ workflow_state self = APPROVED ∧ email_draft self ≠ ∅)) ∧
  (workflow_state (invoke c self).2 = APPROVED →
     workflow_state self = APPROVED ∨
     (step_of c = step_approve ∧ workflow_state self = REVIEW ∧ email_draft self ≠ ∅)) ∧
  (workflow_state (invoke c self).2 = REVIEW →
     workflow_state self = REVIEW ∨
     (step_of c = step_review ∧ email_draft self ≠ ∅)).
Proof.
  pose proof (invoke_state_cases c self) as Hcases.
  split_and!; intros Hafter; rewrite Hafter in Hcases;
    destruct Hcases as [Heq|[[_ Heq]|[(Hc & Hd & Heq)|[(Hc & Hd & Hst & Heq)|
                       [(Hc & Hd & Hst & Heq)|(Hc & Hd & Hst & Heq)]]]]];
    try discriminate Heq; try (left; by symmetry).
  - right. split; [|done]. by destruct c as [| |[[]|]| |].
  - by right.
  - by right.
Qed.

(** ** The order of the steps in a run *)

Lemma run_snoc (calls : list call) (c : call) (self : EmailWorkflowToolkit) :
  run (calls ++ [c]) self = (invoke c (run calls self)).2.
Proof. unfold run. by rewrite foldl_snoc. Qed.

Lemma steps_behind_eq (self : EmailWorkflowToolkit) :
  email_draft self ≠ ∅ →
  steps_behind self =
  match workflow_state self with
  | DRAFT => [step_draft]
  | REVIEW => [step_draft; step_review]
  | APPROVED => [step_draft; step_review; step_approve]
  | SENT => [step_draft; step_review; step_approve; step_send]
  | COMPLETED => []
  end.
Proof. intros Hd. unfold steps_behind. by rewrite (no_draft_false _ Hd). Qed.

Lemma steps_behind_invoke (self : EmailWorkflowToolkit) (c : call) :
  reachable self →
  steps_behind (invoke c self).2 `sublist_of` steps_behind self ++ [step_of c].
Proof.
  intros Hreach.
  destruct (decide (step_of c = step_draft)) as [Hdraft|Hother].
  { destruct c as [r s p|fb|a| |]; try discriminate Hdraft;
      [|cbn in Hdraft; by destruct (default approved_default a)].
    cbn [invoke step_of]. rewrite draft_email_eq. cbn [snd].
    rewrite steps_behind_eq by apply draft_dict_not_empty.
    by apply sublist_inserts_l. }
  pose proof (invoke_keeps_draft c self Hother) as Hkeep.
  destruct (decide (email_draft self = ∅)) as [He|Hd].
  { unfold steps_behind at 1. rewrite Hkeep, (no_draft_true _ He).
    apply sublist_nil_l. }
  assert (Hd' : email_draft (invoke c self).2 ≠ ∅) by (by rewrite Hkeep).
  rewrite (steps_behind_eq _ Hd'), (steps_behind_eq _ Hd).
  pose proof (reachable_state_listed _ Hreach) as Hin.
  destruct (invoke_state_cases c self)
    as [Heq|[[Hc _]|[(Hc & _ & Heq)|[(Hc & _ & Hst & Heq)|
       [(Hc & _ & Hst & Heq)|(Hc & _ & Hst & Heq)]]]]]; [|done|..].
  - rewrite Heq. by apply sublist_inserts_r.
  - rewrite Heq, Hc. rewrite !elem_of_cons, elem_of_nil in Hin.
    destruct Hin as [->|[->|[->|[->|[]]]]];
      cbn [app]; repeat first [apply sublist_skip|apply sublist_cons|apply sublist_nil].
  - by rewrite Heq, Hst, Hc.
  - rewrite Heq, Hst, Hc. cbn [app].
    apply sublist_skip. apply sublist_nil_l.
  - by rewrite Heq, Hst, Hc.
Qed.

Lemma steps_behind_run (calls : list call) :
  steps_behind (run calls __init__) `sublist_of` step_of <$> calls.
Proof.
  induction calls as [|c calls IH] using rev_ind; [done|].
  rewrite run_snoc, fmap_app.
  etrans; [apply steps_behind_invoke, reachable_run, reachable_init|].
  by apply sublist_app.
Qed.

(** X7: the tools enforce the order of the workflow.  A run from a new
    toolkit that ends in state [SENT] holds, in this order, a
    [draft_email], a [review_email], an approving [approve_email] and a
    [send_email]; one that ends in [APPROVED] holds the first three, and
    one that ends in [REVIEW] the first two. *)
Theorem steps_in_order (calls : list call) :
  (workflow_state (run calls __init__) = SENT →
     [step_draft; step_review; step_approve; step_send] `sublist_of` step_of <$> calls) ∧
  (workflow_state (run calls __init__) = APPROVED →
     [step_draft; step_review; step_approve] `sublist_of` step_of <$> calls) ∧
  (workflow_state (run calls __init__) = REVIEW →
     [step_draft; step_review] `sublist_of` step_of <$> calls).
Proof.
  pose proof (steps_behind_run calls) as Hsub.
  pose proof (reachable_run calls __init__ reachable_init) as Hreach.
  split_and!; intros Hst;
    (assert (Hd : email_draft (run calls __init__) ≠ ∅);
     [intros He; by rewrite (reachable_no_draft_state _ Hreach He) in Hst|]);
    by rewrite (steps_behind_eq _ Hd), Hst in Hsub.
Qed.

(** ** Sequences of calls *)

(** X5: from any object, [draft_email], [review_email], [approve_email]
    without an argument and [send_email] end in state [SENT] with the draft
    that was written, and [send_email] returns the confirmation for its
    recipient and subject; sending or approving once more is refused and
    changes nothing. *)
Theorem happy_path_sends_once (self : EmailWorkflowToolkit)
    (recipient subject purpose : str) (feedback : option str) :
  let drafted := (draft_email recipient subject purpose self).2 in
  let reviewed := (review_email feedback drafted).2 in
  let approved := (invoke (call_approve_email None) reviewed).2 in
  let sent := {| workflow_state := SENT;
                 email_draft := draft_dict recipient subject
                                  (email_body recipient subject purpose) purpose |} in
  send_email approved = (Return (sent_message recipient subject), sent) ∧
  send_email sent = (Return (py "❌ Email must be approved before sending."), sent) ∧
  approve_email true sent = (Return (py "❌ Email must be reviewed before approval."), sent).
Proof.
  intros drafted reviewed approved sent. subst drafted reviewed approved sent.
  set (body := email_body recipient subject purpose).
  destruct (draft_dict_lookup recipient subject body purpose) as (Hr & Hs & Hb & _).
  pose proof (draft_dict_not_empty recipient subject body purpose) as Hd.
  rewrite draft_email_eq. cbn [snd]. fold body.
  rewrite (review_email_draft feedback (Toolkit DRAFT _) subject body Hd Hs Hb).
  cbn [snd invoke default email_draft]. unfold approved_default.
  rewrite (approve_email_true (Toolkit REVIEW _) recipient Hd eq_refl Hr).
  cbn [snd email_draft].
  rewrite (send_email_approved (Toolkit APPROVED _) recipient subject Hd eq_refl Hr Hs).
  rewrite (send_email_not_approved (Toolkit SENT _) Hd) by discriminate.
  by rewrite (approve_email_not_reviewed true (Toolkit SENT _) Hd) by discriminate.
Qed.

(** X10: reviewing twice is reviewing once: a second [review_email] with
    the same feedback returns (or raises) what the first did and leaves the
    object as the first left it. *)
Theorem review_twice (self : EmailWorkflowToolkit) (feedback : option str) :
  review_email feedback (review_email feedback self).2 = review_email feedback self.
Proof.
  destruct (decide (email_draft self = ∅)) as [He|Hd].
  { by rewrite !(review_email_no_draft _ _ He). }
  destruct (email_draft self !! "subject") as [s|] eqn:Hs.
  - destruct (email_draft self !! "body") as [b|] eqn:Hb.
    + rewrite (review_email_draft feedback self s b Hd Hs Hb). cbn [snd].
      change (email_draft self) with (email_draft (Toolkit REVIEW (email_draft self))) at 2.
      by rewrite (review_email_draft feedback (Toolkit REVIEW _) s b Hd Hs Hb).
    + rewrite (review_email_no_body feedback self s Hd Hs Hb). cbn [snd].
      by rewrite (review_email_no_body feedback (Toolkit REVIEW _) s Hd Hs Hb).
  - rewrite (review_email_no_subject feedback self Hd Hs). cbn [snd].
    by rewrite (review_email_no_subject feedback (Toolkit REVIEW _) Hd Hs).
Qed.

(** ** The findings of a review *)

Lemma review_points_flags (subject body : str) (feedback : option str) :
  review_points subject body feedback =
  match subject_flags subject ++ body_flags body ++ feedback_finding feedback with
  | [] => [looks_good]
  | finding :: findings => finding :: findings
  end.
Proof.
  unfold review_points, subject_flags, body_flags, feedback_finding, looks_good.
  destruct (len subject <? 5); [|destruct (50 <? len subject)];
    (destruct (len body <? 50);
      [|destruct (contains (py "ACME Corporation") body)]);
    (destruct feedback as [text|]; [destruct (truthy text)|]);
    reflexivity.
Qed.

Ltac heads_differ H :=
  apply (f_equal (hd 0)) in H; vm_compute in H; discriminate H.

(** X8: a review reports at least one finding and at most three, and
    "looks good" is only ever reported alone. *)
Theorem review_points_count (subject body : str) (feedback : option str) :
  (1 ≤ length (review_points subject body feedback) ≤ 3)%nat ∧
  (looks_good ∈ review_points subject body feedback →
   review_points subject body feedback = [looks_good]).
Proof.
  rewrite review_points_flags.
  unfold subject_flags, body_flags, feedback_finding.
  destruct (len subject <? 5); [|destruct (50 <? len subject)];
    (destruct (len body <? 50);
      [|destruct (contains (py "ACME Corporation") body)]);
    (destruct feedback as [text|]; [destruct (truthy text)|]);
    cbn [app length]; (split; [lia|]);
    lazymatch goal with
    | |- _ → ?findings = ?findings => intros _; reflexivity
    | |- _ =>
        rewrite ?elem_of_cons, elem_of_nil; intros Hin; exfalso;
        repeat (destruct Hin as [Hin|Hin]; [heads_differ Hin|]); destruct Hin
    end.
Qed.

(** ** The bodies [draft_email] writes *)

Lemma startswith_app (needle x y : str) :
  startswith needle x = true → startswith needle (x ++ y) = true.
Proof.
  revert x. induction needle as [|a needle IH]; intros [|b x]; cbn; try done.
  intros [Hab Hrest]%andb_prop. by rewrite Hab, (IH _ Hrest).
Qed.

Lemma contains_app_l (needle x y : str) :
  contains needle x = true → contains needle (x ++ y) = true.
Proof.
  induction x as [|b x IH]; cbn [contains app].
  - rewrite orb_false_r. intros Hs.
    pose proof (startswith_app needle [] y Hs) as Hy. cbn [app] in Hy.
    destruct y; cbn [contains]; by rewrite Hy.
  - intros [Hs|Hc]%orb_prop.
    + pose proof (startswith_app needle (b :: x) y Hs) as Hy. cbn [app] in Hy.
      by rewrite Hy.
    + rewrite (IH Hc). apply orb_true_r.
Qed.

Lemma contains_app_r (needle x y : str) :
  contains needle y = true → contains needle (x ++ y) = true.
Proof.
  intros Hy. induction x as [|b x IH]; [done|].
  cbn [contains app]. rewrite IH. apply orb_true_r.
Qed.

Lemma body_flags_none (body : str) :
  (50 ≤ length body)%nat →
  contains (py "ACME Corporation") body = true →
  body_flags body = [].
Proof.
  intros Hlen Hbrand. unfold body_flags, len.
  assert ((N.of_nat (length body) <? 50) = false) as -> by (apply N.ltb_ge; lia).
  by rewrite Hbrand.
Qed.

Ltac eval_lengths :=
  rewrite ?length_app;
  repeat match goal with
         | |- context [length (py ?literal)] =>
             let n := eval vm_compute in (length (py literal)) in
             change (length (py literal)) with n
         end.

Ltac find_brand :=
  lazymatch goal with
  | |- contains _ (_ ++ _) = true =>
      first [ apply contains_app_l; find_brand | apply contains_app_r; find_brand ]
  | |- contains _ (py _) = true => vm_compute; reflexivity
  end.

Ltac body_not_flagged :=
  apply body_flags_none; cbn [lines join];
  [eval_lengths; cbn [length nl]; lia | find_brand].

Lemma generic_body_not_flagged (recipient subject : str) :
  body_flags (generic_body recipient subject) = [].
Proof. unfold generic_body. body_not_flagged. Qed.

Lemma templates_not_flagged (recipient subject : str) :
  map_Forall (λ _ template, body_flags template = []) (templates recipient subject).
Proof.
  unfold templates.
  apply map_Forall_insert_2; [body_not_flagged|].
  apply map_Forall_insert_2; [body_not_flagged|].
  apply map_Forall_singleton. body_not_flagged.
Qed.

Lemma email_body_not_flagged (recipient subject purpose : str) :
  body_flags (email_body recipient subject purpose) = [].
Proof.
  unfold email_body.
  destruct (templates recipient subject !! lower purpose) as [template|] eqn:Hlook.
  - exact (templates_not_flagged recipient subject _ _ Hlook).
  - apply generic_body_not_flagged.
Qed.

Lemma invoke_email_draft_body (c : call) (self : EmailWorkflowToolkit) :
  email_draft (invoke c self).2 = email_draft self ∨
  ∃ recipient subject purpose,
    email_draft (invoke c self).2 =
    draft_dict recipient subject (email_body recipient subject purpose) purpose.
Proof.
  destruct (decide (step_of c = step_draft)) as [Hdraft|Hother];
    [|left; by apply invoke_keeps_draft].
  destruct c as [r s p|fb|a| |]; try discriminate Hdraft;
    [|cbn in Hdraft; by destruct (default approved_default a)].
  right. cbn [invoke]. rewrite draft_email_eq. by exists r, s, p.
Qed.

Lemma reachable_draft_body (self : EmailWorkflowToolkit) :
  reachable self → email_draft self ≠ ∅ →
  ∃ recipient subject purpose,
    email_draft self =
    draft_dict recipient subject (email_body recipient subject purpose) purpose.
Proof.
  induction 1 as [|self c _ IH]; [done|]. intros Hd.
  destruct (invoke_email_draft_body c self) as [Heq|Hnew]; [|done].
  rewrite Heq in *. by apply IH.
Qed.

(** X9: the body checks of [review_email] never fire on a draft that
    [draft_email] wrote: every body it generates has at least 50
    characters and names the company.  On a reachable object with a draft
    the findings of a review are therefore the subject flag and the
    feedback, or "looks good" when there is neither. *)
Theorem drafted_body_never_flagged (self : EmailWorkflowToolkit) :
  reachable self →
  email_draft self ≠ ∅ →
  ∃ recipient subject purpose : str,
    email_draft self =
      draft_dict recipient subject (email_body recipient subject purpose) purpose ∧
    (50 ≤ length (email_body recipient subject purpose))%nat ∧
    contains (py "ACME Corporation") (email_body recipient subject purpose) = true ∧
    ∀ feedback : option str,
      (review_email feedback self).1 =
      Return (review_report
                match subject_flags subject ++ feedback_finding feedback with
                | [] => [looks_good]
                | finding :: findings => finding :: findings
                end).
Proof.
  intros Hreach Hd.
  destruct (reachable_draft_body _ Hreach Hd) as (r & s & p & Hdict).
  exists r, s, p. split; [done|].
  pose proof (email_body_not_flagged r s p) as Hflags.
  assert (Hbody : (50 ≤ length (email_body r s p))%nat ∧
                  contains (py "ACME Corporation") (email_body r s p) = true).
  { unfold body_flags, len in Hflags.
    destruct (N.of_nat (length (email_body r s p)) <? 50) eqn:Hlen; [done|].
    apply N.ltb_ge in Hlen.
    destruct (contains (py "ACME Corporation") (email_body r s p)); [|done].
    split; [lia|done]. }
  destruct Hbody as [Hlen Hbrand]. split; [done|]. split; [done|].
  intros feedback.
  destruct (draft_dict_lookup r s (email_body r s p) p) as (_ & Hs & Hb & _).
  rewrite <- Hdict in Hs, Hb.
  rewrite (review_email_draft feedback self s _ Hd Hs Hb). cbn [fst].
  by rewrite review_points_flags, Hflags.
Qed.

(** ** Approval does not outlive the draft it was given to *)

(** X11: after [draft_email] nothing can be approved or sent before a
    review, whatever the object was before, an approved or sent one
    included: both calls are refused and change nothing. *)
Theorem new_draft_needs_review (self : EmailWorkflowToolkit)
    (recipient subject purpose : str) (approved : bool) :
  let drafted := (draft_email recipient subject purpose self).2 in
  approve_email approved drafted =
    (Return (py "❌ Email must be reviewed before approval."), drafted) ∧
  send_email drafted =
    (Return (py "❌ Email must be approved before sending."), drafted).
Proof.
  intros drafted. subst drafted. rewrite draft_email_eq. cbn [snd].
  pose proof (draft_dict_not_empty recipient subject
                (email_body recipient subject purpose) purpose) as Hd.
  rewrite (approve_email_not_reviewed approved (Toolkit DRAFT _) Hd) by discriminate.
  by rewrite (send_email_not_approved (Toolkit DRAFT _) Hd) by discriminate.
Qed.

(** X12: a rejected draft has to be reviewed again: after a rejecting
    [approve_email] on a reachable object in state [REVIEW], approving and
    sending are refused and change nothing, and after another
    [review_email] an approving [approve_email] goes through. *)
Theorem rejected_draft_needs_review (self : EmailWorkflowToolkit)
    (feedback : option str) :
  reachable self →
  workflow_state self = REVIEW →
  let rejected := (approve_email false self).2 in
  workflow_state rejected = DRAFT ∧
  approve_email true rejected =
    (Return (py "❌ Email must be reviewed before approval."), rejected) ∧
  send_email rejected =
    (Return (py "❌ Email must be approved before sending."), rejected) ∧
  workflow_state (approve_email true (review_email feedback rejected).2).2 = APPROVED ∧
  succeeded (approve_email true (review_email feedback rejected).2) = true.
Proof.
  intros Hreach Hst rejected. subst rejected.
  assert (Hd : email_draft self ≠ ∅).
  { intros He. by rewrite (reachable_no_draft_state _ Hreach He) in Hst. }
  destruct (reachable_draft_keys _ Hreach Hd) as (r & s & b & p & Hdict).
  destruct (draft_dict_lookup r s b p) as (Hr & Hs & Hb & _).
  rewrite <- Hdict in Hr, Hs, Hb.
  rewrite (approve_email_false self Hd Hst). cbn [snd workflow_state].
  split; [done|].
  rewrite (approve_email_not_reviewed true (Toolkit DRAFT _) Hd) by discriminate.
  rewrite (send_email_not_approved (Toolkit DRAFT _) Hd) by discriminate.
  split; [done|]. split; [done|].
  rewrite (review_email_draft feedback (Toolkit DRAFT _) s b Hd Hs Hb). cbn [snd email_draft].
  rewrite (approve_email_true (Toolkit REVIEW _) r Hd eq_refl Hr).
  split; [done|]. unfold succeeded. cbn [fst]. by rewrite approved_message_no_error.
Qed.

(** X13: what [draft_email] stores is what [get_workflow_status] reports
    next: the state DRAFT, the recipient, the subject and the purpose as
    they were given (the purpose not lower-cased), and the hint to review. *)
Theorem status_after_draft (self : EmailWorkflowToolkit)
    (recipient subject purpose : str) :
  let drafted := (draft_email recipient subject purpose self).2 in
  get_workflow_status drafted =
  (Return (lines [
     py "📋 Current Workflow Status: " ++ py "DRAFT";
     [];
     py "📧 Email Details:";
     py "• To: " ++ recipient;
     py "• Subject: " ++ subject;
     py "• Purpose: " ++ purpose;
     [];
     py "🔍 Next: Review the email" ]), drafted).
Proof.
  intros drafted. subst drafted. rewrite draft_email_eq. cbn [snd].
  set (body := email_body recipient subject purpose).
  destruct (draft_dict_lookup recipient subject body purpose) as (Hr & Hs & _ & Hp).
  pose proof (draft_dict_not_empty recipient subject body purpose) as Hd.
  rewrite (get_workflow_status_draft (Toolkit DRAFT _) recipient subject purpose Hd Hr Hs Hp).
  cbn [workflow_state next_steps default from_option id].
  by assert (ascii_upper <$> value DRAFT = py "DRAFT") as -> by (by vm_compute).
Qed.

(** ** Refusals *)

(** X14: a call that returns one of the failure messages has changed
    nothing: this holds for each of the five tools and for every object. *)
Theorem failure_message_means_unchanged (self : EmailWorkflowToolkit) (c : call) :
  signalled (invoke c self) ≠ None → (invoke c self).2 = self.
Proof.
  destruct c as [r s p|fb|a| |]; cbn [invoke].
  - intros Hsig. by destruct (draft_email_succeeded r s p self) as [_ Hnone].
  - unfold review_email. split_method; cbn [fst snd]; intros Hsig; try reflexivity;
      exfalso; apply Hsig; unfold signalled; cbn [fst]; try reflexivity;
      apply error_of_head; lazy; discriminate.
  - unfold approve_email. split_method; cbn [fst snd]; intros Hsig; try reflexivity;
      exfalso; apply Hsig; unfold signalled; cbn [fst]; try reflexivity;
      first [apply error_of_head; lazy; discriminate | by vm_compute].
  - unfold send_email. split_method; cbn [fst snd]; intros Hsig; try reflexivity;
      exfalso; apply Hsig; unfold signalled; cbn [fst]; try reflexivity;
      apply error_of_head; lazy; discriminate.
  - intros _. apply get_workflow_status_unchanged.
Qed.

End Workflow.

(** * The properties at sample runs

    The runs below use ASCII arguments, so the case tables are never
    consulted. *)

#[local] Existing Instance ascii_only_case.

Lemma sample_has_draft (self : EmailWorkflowToolkit) :
  no_draft (email_draft self) = false → email_draft self ≠ ∅.
Proof. unfold no_draft. intros Hb. by apply bool_decide_eq_false_1 in Hb. Qed.

(** C1, as stated, fails on a new toolkit: the state is not [REVIEW] (nor
    [APPROVED]), yet [approve_email] and [send_email] name a missing draft,
    not an invalid transition. *)
Lemma refused_without_draft_names_no_transition :
  workflow_state __init__ ≠ REVIEW ∧
  workflow_state __init__ ≠ APPROVED ∧
  approve_email true __init__ = (Return (py "❌ No email draft to approve."), __init__) ∧
  signalled (approve_email true __init__) = Some NoDraftError ∧
  signalled (approve_email true __init__) ≠ Some InvalidTransitionError ∧
  signalled (send_email __init__) = Some NoDraftError ∧
  signalled (send_email __init__) ≠ Some InvalidTransitionError.
Proof.
  split; [discriminate|]. split; [discriminate|].
  split; [by vm_compute|].
  assert (Ha : signalled (approve_email true __init__) = Some NoDraftError) by (by vm_compute).
  assert (Hs : signalled (send_email __init__) = Some NoDraftError) by (by vm_compute).
  rewrite Ha, Hs. by split_and!.
Qed.

Lemma refused_calls_change_nothing_witness :
  workflow_state draft_sample ≠ REVIEW ∧
  workflow_state draft_sample ≠ APPROVED ∧
  (approve_email true draft_sample).2 = draft_sample ∧
  (send_email draft_sample).2 = draft_sample ∧
  signalled (approve_email true __init__) = Some NoDraftError.
Proof.
  assert (Hd : email_draft draft_sample ≠ ∅) by (by apply sample_has_draft).
  assert (Hr : workflow_state draft_sample ≠ REVIEW) by (vm_compute; discriminate).
  assert (Ha : workflow_state draft_sample ≠ APPROVED) by (vm_compute; discriminate).
  destruct (refused_calls_change_nothing draft_sample true) as (Happ & Hsend & _).
  destruct (refused_calls_change_nothing __init__ true) as (_ & _ & Hnone).
  destruct (Happ Hd Hr) as [Heq _]. destruct (Hsend Hd Ha) as [Heq' _].
  destruct (Hnone eq_refl) as (_ & Hsig & _).
  rewrite Heq, Heq'. by split_and!.
Defined.

Lemma draft_email_total_reset_witness :
  py "c@d.org" ≠ [] ∧ py "Budget" ≠ [] ∧
  workflow_state sent_sample = SENT ∧
  (draft_email (py "c@d.org") (py "Budget") (py "proposal") sent_sample).2 =
  (draft_email (py "c@d.org") (py "Budget") (py "proposal") __init__).2.
Proof.
  assert (Hr : py "c@d.org" ≠ []) by (vm_compute; discriminate).
  assert (Hs : py "Budget" ≠ []) by (vm_compute; discriminate).
  destruct (draft_email_total_reset sent_sample (py "c@d.org") (py "Budget")
              (py "proposal") Hr Hs) as (_ & _ & _ & Hany).
  split; [exact Hr|]. split; [exact Hs|]. split; [by vm_compute|].
  apply Hany.
Defined.

Lemma review_needs_only_a_draft_witness :
  (workflow_state draft_sample = DRAFT ∧
   workflow_state (review_email None draft_sample).2 = REVIEW) ∧
  (workflow_state review_sample = REVIEW ∧
   workflow_state (review_email None review_sample).2 = REVIEW) ∧
  (workflow_state approved_sample = APPROVED ∧
   workflow_state (review_email None approved_sample).2 = REVIEW) ∧
  (workflow_state sent_sample = SENT ∧
   workflow_state (review_email None sent_sample).2 = REVIEW) ∧
  signalled (review_email None __init__) = Some NoDraftError.
Proof.
  pose proof (reachable_run _ __init__ reachable_init : reachable draft_sample) as Hd.
  pose proof (reachable_run _ _ Hd : reachable review_sample) as Hr.
  pose proof (reachable_run _ _ Hr : reachable approved_sample) as Ha.
  pose proof (reachable_run happy_path __init__ reachable_init) as Hs.
  destruct (review_needs_only_a_draft draft_sample None Hd) as [Hdraft _].
  destruct (review_needs_only_a_draft review_sample None Hr) as [Hreview _].
  destruct (review_needs_only_a_draft approved_sample None Ha) as [Happroved _].
  destruct (review_needs_only_a_draft sent_sample None Hs) as [Hsent _].
  destruct (review_needs_only_a_draft __init__ None reachable_init) as [_ Hnone].
  destruct Hdraft as (? & ? & _ & _ & Heq1 & _); [by apply sample_has_draft|].
  destruct Hreview as (? & ? & _ & _ & Heq2 & _); [by apply sample_has_draft|].
  destruct Happroved as (? & ? & _ & _ & Heq3 & _); [by apply sample_has_draft|].
  destruct Hsent as (? & ? & _ & _ & Heq4 & _); [by apply sample_has_draft|].
  destruct (Hnone eq_refl) as [_ Hsig].
  rewrite Heq1, Heq2, Heq3, Heq4.
  split_and!; by vm_compute.
Defined.

(** C4, as stated, fails at the end of the happy path: in state [SENT]
    [review_email] is not refused, it goes through and the state becomes
    [REVIEW]. *)
Lemma review_leaves_sent :
  workflow_state sent_sample = SENT ∧
  workflow_state (review_email None sent_sample).2 = REVIEW ∧
  succeeded (review_email None sent_sample) = true ∧
  signalled (review_email None sent_sample) = None.
Proof. by vm_compute. Qed.

Lemma calls_in_sent_witness :
  reachable sent_sample ∧
  workflow_state sent_sample = SENT ∧
  (send_email sent_sample).2 = sent_sample ∧
  workflow_state (review_email (Some (py "once more")) sent_sample).2 = REVIEW.
Proof.
  pose proof (reachable_run happy_path __init__ reachable_init) as Hr.
  assert (Hst : workflow_state sent_sample = SENT) by (by vm_compute).
  destruct (calls_in_sent sent_sample Hr Hst) as (_ & [Hsend _] & _ & Hrev & _).
  destruct (Hrev (Some (py "once more"))) as (Hstate & _).
  split; [exact Hr|]. split; [exact Hst|].
  rewrite Hsend. split; [reflexivity|exact Hstate].
Defined.

(** C5, as stated, fails for the run of the specification: after
    [draft_email], [review_email] and the rejection the object is the one
    [draft_email] left, so no review notes read off the object can be empty
    after the first and hold the findings after the last; the finding of
    the review was returned in its report only. *)
Lemma rejection_keeps_no_notes :
  let reviewed := review_email None draft_sample in
  let rejected := (approve_email false reviewed.2).2 in
  reviewed.1 = Return (review_report [looks_good]) ∧
  rejected = draft_sample ∧
  ¬ ∃ review_notes : EmailWorkflowToolkit → list str,
      review_notes draft_sample = [] ∧ review_notes rejected ≠ [].
Proof.
  assert (Heq : (approve_email false (review_email None draft_sample).2).2 = draft_sample)
    by (by vm_compute).
  cbn zeta. rewrite Heq. split; [by vm_compute|]. split; [done|].
  intros (notes & Hempty & Hfull). by apply Hfull.
Qed.

(** C6, as stated, fails for the empty recipient and subject:
    [draft_email] goes through and stores them. *)
Lemma empty_recipient_and_subject_accepted :
  succeeded (draft_email [] [] (py "support") __init__) = true ∧
  signalled (draft_email [] [] (py "support") __init__) ≠ Some ValidationError ∧
  workflow_state (draft_email [] [] (py "support") __init__).2 = DRAFT ∧
  email_draft (draft_email [] [] (py "support") __init__).2 !! "recipient" = Some [] ∧
  email_draft (draft_email [] [] (py "support") __init__).2 !! "subject" = Some [].
Proof.
  assert (Hsig : signalled (draft_email [] [] (py "support") __init__) = None)
    by (by vm_compute).
  rewrite Hsig. split; [by vm_compute|]. split; [discriminate|]. by vm_compute.
Qed.

(** C7, as stated, fails for the draft of the happy path reviewed with the
    feedback "needs more detail": no flag is raised, so the specification
    lists "looks good" followed by the feedback as given, while the review
    reports the prefixed feedback alone. *)
Lemma feedback_replaces_looks_good :
  let subject := py "Q1 Sync" in
  let body := email_body (py "a@b.com") (py "Q1 Sync") (py "follow-up") in
  let feedback := Some (py "needs more detail") in
  email_draft draft_sample !! "subject" = Some subject ∧
  email_draft draft_sample !! "body" = Some body ∧
  subject_flags subject ++ body_flags body = [] ∧
  findings_spec subject body feedback = [looks_good; py "needs more detail"] ∧
  review_points subject body feedback = [py "💭 Human feedback: needs more detail"] ∧
  (looks_good ∉ review_points subject body feedback) ∧
  review_points subject body feedback ≠ findings_spec subject body feedback ∧
  (review_email feedback draft_sample).1 =
    Return (review_report [py "💭 Human feedback: needs more detail"]).
Proof.
  cbn zeta.
  assert (Hpts : review_points (py "Q1 Sync")
                   (email_body (py "a@b.com") (py "Q1 Sync") (py "follow-up"))
                   (Some (py "needs more detail"))
                 = [py "💭 Human feedback: needs more detail"]) by (by vm_compute).
  assert (Hspec : findings_spec (py "Q1 Sync")
                    (email_body (py "a@b.com") (py "Q1 Sync") (py "follow-up"))
                    (Some (py "needs more detail"))
                  = [looks_good; py "needs more detail"]) by (by vm_compute).
  rewrite Hpts, Hspec.
  split; [by vm_compute|]. split; [by vm_compute|]. split; [by vm_compute|].
  split; [done|]. split; [done|].
  split; [|split; [|by vm_compute]].
  - rewrite not_elem_of_cons. split; [vm_compute; discriminate|apply not_elem_of_nil].
  - discriminate.
Qed.

Lemma review_findings_witness :
  email_draft draft_sample !! "subject" = Some (py "Q1 Sync") ∧
  email_draft draft_sample !! "body" =
    Some (email_body (py "a@b.com") (py "Q1 Sync") (py "follow-up")) ∧
  review_points (py "Q1 Sync")
    (email_body (py "a@b.com") (py "Q1 Sync") (py "follow-up")) None = [looks_good].
Proof.
  assert (Hs : email_draft draft_sample !! "subject" = Some (py "Q1 Sync"))
    by (by vm_compute).
  assert (Hb : email_draft draft_sample !! "body" =
               Some (email_body (py "a@b.com") (py "Q1 Sync") (py "follow-up")))
    by (by vm_compute).
  destruct (review_findings draft_sample _ _ None Hs Hb) as [_ Hpts].
  split; [exact Hs|]. split; [exact Hb|].
  rewrite Hpts. by vm_compute.
Defined.

Lemma unknown_purpose_generic_body_witness :
  (lower (py "unknown-category") ∉ [py "follow-up"; py "proposal"; py "support"]) ∧
  email_body (py "a@b.com") (py "Q1 Sync") (py "unknown-category") =
    generic_body (py "a@b.com") (py "Q1 Sync") ∧
  forallb is_ascii (py "Follow-Up") = true ∧
  ascii_lower <$> py "Follow-Up" = py "follow-up" ∧
  email_body (py "a@b.com") (py "Q1 Sync") (py "Follow-Up") =
    follow_up_body (py "a@b.com") (py "Q1 Sync") ∧
  forallb is_ascii (py "PROPOSAL") = true ∧
  ascii_lower <$> py "PROPOSAL" = py "proposal" ∧
  email_body (py "a@b.com") (py "Q1 Sync") (py "PROPOSAL") =
    proposal_body (py "a@b.com") (py "Q1 Sync") ∧
  forallb is_ascii (py "SUPPORT") = true ∧
  ascii_lower <$> py "SUPPORT" = py "support" ∧
  email_body (py "a@b.com") (py "Q1 Sync") (py "SUPPORT") =
    support_body (py "a@b.com") (py "Q1 Sync") ∧
  support_body (py "a@b.com") (py "Q1 Sync") ≠ generic_body (py "a@b.com") (py "Q1 Sync").
Proof.
  assert (Hun : lower (py "unknown-category") ∉ [py "follow-up"; py "proposal"; py "support"]).
  { rewrite !not_elem_of_cons.
    split_and!; [vm_compute; discriminate..|apply not_elem_of_nil]. }
  assert (Hf : forallb is_ascii (py "Follow-Up") = true) by (by vm_compute).
  assert (Hfk : ascii_lower <$> py "Follow-Up" = py "follow-up") by (by vm_compute).
  assert (Hp : forallb is_ascii (py "PROPOSAL") = true) by (by vm_compute).
  assert (Hpk : ascii_lower <$> py "PROPOSAL" = py "proposal") by (by vm_compute).
  assert (Hs : forallb is_ascii (py "SUPPORT") = true) by (by vm_compute).
  assert (Hsk : ascii_lower <$> py "SUPPORT" = py "support") by (by vm_compute).
  destruct (unknown_purpose_generic_body __init__ (py "a@b.com") (py "Q1 Sync")
              (py "unknown-category")) as [Hgeneric _].
  destruct (unknown_purpose_generic_body __init__ (py "a@b.com") (py "Q1 Sync")
              (py "Follow-Up")) as (_ & _ & Hfollow & _).
  destruct (unknown_purpose_generic_body __init__ (py "a@b.com") (py "Q1 Sync")
              (py "PROPOSAL")) as (_ & _ & Hproposal & _).
  destruct (unknown_purpose_generic_body __init__ (py "a@b.com") (py "Q1 Sync")
              (py "SUPPORT")) as (_ & _ & Hsupport & _).
  destruct (Hgeneric Hun) as (Hbody & _).
  destruct (Hfollow Hf) as (Hfollow' & _ & _).
  destruct (Hproposal Hp) as (_ & Hproposal' & _).
  destruct (Hsupport Hs) as (_ & _ & Hsupport').
  split; [exact Hun|]. split; [exact Hbody|].
  split; [exact Hf|]. split; [exact Hfk|]. split; [exact (Hfollow' Hfk)|].
  split; [exact Hp|]. split; [exact Hpk|]. split; [exact (Hproposal' Hpk)|].
  split; [exact Hs|]. split; [exact Hsk|]. split; [exact (Hsupport' Hsk)|].
  vm_compute. discriminate.
Defined.

Lemma completed_never_assigned_witness :
  reachable sent_sample ∧
  workflow_state sent_sample ∈ [DRAFT; REVIEW; APPROVED; SENT] ∧
  workflow_state sent_sample ≠ COMPLETED.
Proof.
  pose proof (reachable_run happy_path __init__ reachable_init) as Hr.
  destruct (completed_never_assigned sent_sample Hr) as (Hin & Hne & _).
  split; [exact Hr|]. split; [exact Hin|exact Hne].
Defined.

Lemma approve_defaults_to_true_witness :
  reachable review_sample ∧
  workflow_state review_sample = REVIEW ∧
  workflow_state (invoke (call_approve_email None) review_sample).2 = APPROVED.
Proof.
  pose proof (reachable_run [call_review_email None] draft_sample
                (reachable_run _ __init__ reachable_init)) as Hr.
  assert (Hst : workflow_state review_sample = REVIEW) by (by vm_compute).
  destruct (approve_defaults_to_true review_sample Hr Hst) as (_ & Happroved & _).
  split; [exact Hr|]. split; [exact Hst|exact Happroved].
Defined.


(** * The further properties at sample runs *)

Lemma reachable_calls_return_witness :
  reachable sent_sample ∧
  ∃ message : str, (invoke call_get_workflow_status sent_sample).1 = Return message.
Proof.
  pose proof (reachable_run happy_path __init__ reachable_init) as Hr.
  split; [exact Hr|].
  exact (reachable_calls_return sent_sample call_get_workflow_status Hr).
Defined.

Lemma status_report_witness :
  reachable sent_sample ∧
  email_draft sent_sample ≠ ∅ ∧
  (get_workflow_status sent_sample).2 = sent_sample ∧
  next_steps (workflow_state sent_sample) = Some (py "🎉 Workflow completed!") ∧
  (get_workflow_status __init__).1 =
    Return (py "📋 Workflow Status: No active workflow" ++ nl ++ nl ++
            py "🚀 Next: Create an email draft").
Proof.
  pose proof (reachable_run happy_path __init__ reachable_init) as Hr.
  assert (Hd : email_draft sent_sample ≠ ∅) by (by apply sample_has_draft).
  destruct (status_report sent_sample Hr) as [_ Hdraft].
  destruct (status_report __init__ reachable_init) as [Hnone _].
  destruct (Hdraft Hd) as (r & s & p & hint & _ & _ & _ & _ & _ & Heq).
  split; [exact Hr|]. split; [exact Hd|].
  rewrite Heq, (Hnone eq_refl). split; [reflexivity|]. split; [by vm_compute|reflexivity].
Defined.

Lemma only_draft_email_writes_draft_witness :
  step_of (call_approve_email (Some false)) ≠ step_draft ∧
  email_draft review_sample ≠ ∅ ∧
  email_draft (invoke (call_approve_email (Some false)) review_sample).2 =
    email_draft review_sample ∧
  email_draft (invoke (call_approve_email (Some false)) review_sample).2 ≠ ∅.
Proof.
  assert (Hc : step_of (call_approve_email (Some false)) ≠ step_draft) by discriminate.
  assert (Hd : email_draft review_sample ≠ ∅) by (by apply sample_has_draft).
  destruct (only_draft_email_writes_draft review_sample (call_approve_email (Some false)))
    as [Hkeep Hfull].
  split; [exact Hc|]. split; [exact Hd|]. split; [exact (Hkeep Hc)|exact (Hfull Hd)].
Defined.

Lemma missing_key_raises_after_assignment_witness :
  let broken := {| workflow_state := REVIEW;
                   email_draft := {[ "purpose" := py "support" ]} |} in
  email_draft broken ≠ ∅ ∧
  email_draft broken !! "subject" = None ∧
  email_draft broken !! "recipient" = None ∧
  workflow_state (review_email None broken).2 = REVIEW ∧
  (review_email None broken).1 = Raise (KeyError "subject") ∧
  workflow_state (approve_email true broken).2 = APPROVED ∧
  (approve_email true broken).1 = Raise (KeyError "recipient").
Proof.
  cbn zeta.
  set (broken := {| workflow_state := REVIEW;
                    email_draft := {[ "purpose" := py "support" ]} |}).
  assert (Hd : email_draft broken ≠ ∅) by (by apply sample_has_draft).
  assert (Hs : email_draft broken !! "subject" = None) by (by vm_compute).
  assert (Hr : email_draft broken !! "recipient" = None) by (by vm_compute).
  destruct (missing_key_raises_after_assignment broken Hd) as (Hrev & _ & Happ & _).
  rewrite (Hrev None Hs), (Happ eq_refl Hr).
  split; [exact Hd|]. split; [exact Hs|]. split; [exact Hr|]. by split_and!.
Defined.

Lemma state_entered_only_by_its_step_witness :
  workflow_state (invoke call_send_email approved_sample).2 = SENT ∧
  workflow_state approved_sample = APPROVED ∧
  email_draft approved_sample ≠ ∅.
Proof.
  assert (Hafter : workflow_state (invoke call_send_email approved_sample).2 = SENT)
    by (by vm_compute).
  destruct (state_entered_only_by_its_step approved_sample call_send_email)
    as (Hsent & _ & _).
  destruct (Hsent Hafter) as [Hst|(_ & Hst & Hd)].
  - by vm_compute in Hst.
  - split; [exact Hafter|]. split; [exact Hst|exact Hd].
Defined.

Lemma steps_in_order_witness :
  workflow_state (run happy_path __init__) = SENT ∧
  [step_draft; step_review; step_approve; step_send] `sublist_of` step_of <$> happy_path.
Proof.
  assert (Hst : workflow_state (run happy_path __init__) = SENT) by (by vm_compute).
  destruct (steps_in_order happy_path) as (Hsent & _ & _).
  split; [exact Hst|exact (Hsent Hst)].
Defined.

Lemma review_points_count_witness :
  looks_good ∈ review_points (py "Q1 Sync") (generic_body [] []) None ∧
  review_points (py "Q1 Sync") (generic_body [] []) None = [looks_good].
Proof.
  assert (Hin : looks_good ∈ review_points (py "Q1 Sync") (generic_body [] []) None).
  { assert (review_points (py "Q1 Sync") (generic_body [] []) None = [looks_good]) as ->
      by (by vm_compute).
    apply list_elem_of_singleton. reflexivity. }
  destruct (review_points_count (py "Q1 Sync") (generic_body [] []) None) as [_ Hsole].
  split; [exact Hin|exact (Hsole Hin)].
Defined.

Lemma drafted_body_never_flagged_witness :
  reachable sent_sample ∧
  email_draft sent_sample ≠ ∅ ∧
  (review_email (Some (py "needs more detail")) sent_sample).1 =
    Return (review_report [py "💭 Human feedback: needs more detail"]).
Proof.
  pose proof (reachable_run happy_path __init__ reachable_init) as Hr.
  assert (Hd : email_draft sent_sample ≠ ∅) by (by apply sample_has_draft).
  destruct (drafted_body_never_flagged sent_sample Hr Hd)
    as (r & s & p & Hdict & _ & _ & Hrev).
  split; [exact Hr|]. split; [exact Hd|].
  rewrite (Hrev (Some (py "needs more detail"))).
  assert (Hs : email_draft sent_sample !! "subject" = Some (py "Q1 Sync")) by (by vm_compute).
  rewrite Hdict in Hs. destruct (draft_dict_lookup r s (email_body r s p) p) as (_ & Hs' & _).
  rewrite Hs' in Hs. injection Hs as ->. by vm_compute.
Defined.

Lemma rejected_draft_needs_review_witness :
  reachable review_sample ∧
  workflow_state review_sample = REVIEW ∧
  workflow_state (approve_email false review_sample).2 = DRAFT ∧
  (send_email (approve_email false review_sample).2).2 =
    (approve_email false review_sample).2.
Proof.
  pose proof (reachable_run [call_review_email None] draft_sample
                (reachable_run _ __init__ reachable_init)) as Hr.
  assert (Hst : workflow_state review_sample = REVIEW) by (by vm_compute).
  destruct (rejected_draft_needs_review review_sample None Hr Hst)
    as (Hdraft & _ & Hsend & _).
  split; [exact Hr|]. split; [exact Hst|]. split; [exact Hdraft|].
  by rewrite Hsend.
Defined.

Lemma failure_message_means_unchanged_witness :
  signalled (invoke call_send_email review_sample) = Some InvalidTransitionError ∧
  (invoke call_send_email review_sample).2 = review_sample.
Proof.
  assert (Hsig : signalled (invoke call_send_email review_sample) =
                 Some InvalidTransitionError) by (by vm_compute).
  split; [exact Hsig|].
  apply failure_message_means_unchanged. by rewrite Hsig.
Defined.
